(** * RODEM_Calo: the dense network and the flow factories

    A shallow embedding of [src/models/flows.py] and [src/models/dense.py].

    Both modules are glue around torch and nflows.  The objects of those
    libraries are embedded as constructor terms that record the arguments the
    source passes to the library constructors; tensors are embedded as the
    expression (the computation graph) that the forward pass builds.  Weights,
    their random initialisation and the numerics of the library operations are
    not part of the embedding.  What nflows does when the constructor calls
    of [flows] run (the arguments it refuses, the network factory it runs) is
    modelled apart, in [nflows], and the calls as Python runs them are the
    two together.

    Python's effects are explicit: a world holds the store of list objects
    (so that a list passed by reference is shared, not copied) and the log of
    the warnings issued so far, and a call either returns a value or raises. *)

From Stdlib Require Import ZArith QArith Qround Lia.
From stdpp Require Import gmap strings list.

Open Scope Z_scope.

(** ** The Python runtime the two modules rely on *)

(** Exceptions.  [DanglingReference] has no Python counterpart: it is what a
    read through a reference that the store does not hold gives, which cannot
    arise in Python, where a reference keeps its object alive. *)
Inductive exn : Type :=
  | SystemExit
  | IndexError
  | AttributeError
  | ValueError
  | DanglingReference.

Inductive outcome (A : Type) : Type :=
  | Returned (a : A)
  | Raised (e : exn).
Arguments Returned {A} a.
Arguments Raised {A} e.

(** The warnings of the two modules, one constructor per [warnings.warn] call
    site, carrying the values its message interpolates. *)
Inductive Warning : Type :=
  | NoNetCreateFn
  | MaskAdjusted (input_dim : Z) (mask : option (list Z))
  | NumStacksNotInt
  | BothNorms.

Definition loc : Type := positive.

Record World : Type := mkWorld {
  heap : gmap loc (list Z);
  warnings : list Warning
}.

(** A call: from the world before to an outcome and the world after. *)
Definition M (A : Type) : Type := World → outcome A * World.

#[global] Instance M_ret : MRet M := λ A a w, (Returned a, w).
#[global] Instance M_bind : MBind M := λ A B f m w,
  match m w with
  | (Returned a, w') => f a w'
  | (Raised e, w') => (Raised e, w')
  end.

Definition raise {A : Type} (e : exn) : M A := λ w, (Raised e, w).

Definition warn (x : Warning) : M unit := λ w,
  (Returned (), mkWorld (heap w) (warnings w ++ [x])).

(** [exit()] raises [SystemExit]. *)
Definition exit {A : Type} : M A := raise SystemExit.

(** A list display [[v1, ..., vn]] makes a new list object. *)
Definition new_list (l : list Z) : M loc := λ w,
  let r := fresh (dom (heap w)) in
  (Returned r, mkWorld (<[r := l]> (heap w)) (warnings w)).

Definition read_list (r : loc) : M (list Z) := λ w,
  match heap w !! r with
  | Some l => (Returned l, w)
  | None => (Raised DanglingReference, w)
  end.

(** [r += l] on a list object extends it in place. *)
Definition iadd_list (r : loc) (l : list Z) : M unit := λ w,
  match heap w !! r with
  | Some l0 => (Returned (), mkWorld (<[r := l0 ++ l]> (heap w)) (warnings w))
  | None => (Raised DanglingReference, w)
  end.

(** Code without effects on the world still raises: [outcome] is its monad. *)
#[global] Instance outcome_ret : MRet outcome := λ A a, Returned a.
#[global] Instance outcome_bind : MBind outcome := λ A B f o,
  match o with
  | Returned a => f a
  | Raised e => Raised e
  end.

(** [l[i]]: a negative index counts from the end. *)
Definition getitem {A : Type} (l : list A) (i : Z) : outcome A :=
  let j := if i <? 0 then Z.of_nat (length l) + i else i in
  if j <? 0 then Raised IndexError
  else match l !! Z.to_nat j with
       | Some v => Returned v
       | None => Raised IndexError
       end.

(** [l[:stop]]: a negative stop counts from the end, never before the start. *)
Definition slice_to {A : Type} (l : list A) (stop : Z) : list A :=
  let j := if stop <? 0 then Z.max 0 (Z.of_nat (length l) + stop) else stop in
  take (Z.to_nat j) l.

Definition lift {A : Type} (o : outcome A) : M A := λ w, (o, w).

(** [l * n]: [n] copies of [l], none when [n <= 0]. *)
Definition list_mul {A : Type} (l : list A) (n : Z) : list A :=
  concat (replicate (Z.to_nat n) l).

(** [range(n)]. *)
Definition range (n : Z) : list Z := Z.of_nat <$> seq 0 (Z.to_nat n).

(** [for i in range(n): s = body(i, s)]. *)
Definition for_range {S : Type} (n : Z) (body : Z → S → S) (s : S) : S :=
  foldl (λ s i, body i s) s (range n).

(** Numbers as the callers pass them: an [int], or a finite [float] taken as
    the rational it denotes. *)
Inductive number : Type :=
  | Int (z : Z)
  | Float (q : Q).

(** [int(x)] on a finite float truncates towards zero. *)
Definition int_of_float (q : Q) : Z := Z.quot (Qnum q) (Z.pos (Qden q)).

(** The values a keyword option is given, with Python's truth value. *)
Inductive py_value : Type :=
  | PyNone
  | PyBool (b : bool)
  | PyInt (z : Z)
  | PyStr (s : string).

Definition truthy (v : py_value) : bool :=
  match v with
  | PyNone => false
  | PyBool b => b
  | PyInt z => negb (z =? 0)
  | PyStr s => negb (String.eqb s "")
  end.

(** ** [src/models/flows.py] *)

Module flows.

Section Flows.

(** The caller's network factory is opaque to this module: it is only handed
    on to the coupling transform. *)
Context {NetFn : Type}.

(** The nflows transforms the module builds, as the constructor calls with
    their arguments (in the order of the nflows signatures). *)
#[warnings="-register-all"]
Inductive Transform : Type :=
  | PiecewiseRationalQuadraticCouplingTransform
      (mask : list Z) (transform_net_create_fn : NetFn) (num_bins : Z)
      (tails : string) (tail_bound : number)
      (apply_unconditional_transform : bool)
  | ReversePermutation (features : Z)
  | CompositeTransform (transforms : list Transform).

Inductive Distribution : Type :=
  | StandardNormal (shape : list Z).

Inductive flow : Type :=
  | Flow (transform : Transform) (distribution : Distribution).

Definition flow_distribution (f : flow) : Distribution :=
  match f with Flow _ d => d end.

Definition make_mask (input_dim : Z) : list Z :=
  let n_mask := Qceiling (inject_Z input_dim / 2) in
  let mask := list_mul [1] n_mask ++ list_mul [0] (input_dim - n_mask) in
  mask.

Definition coupling_spline_transformer
    (input_dim : Z) (net_create_fn : option NetFn) (num_stacks : number)
    (tails : option string) (tail_bounds : number) (num_bins : Z)
    (mask : option (list Z)) : M Transform :=
  net_create_fn ←
    match net_create_fn with
    | None => warn NoNetCreateFn;; exit
    | Some f => mret f
    end;
  let tails := match tails with None => "linear"%string | Some t => t end in
  mask ←
    match mask with
    | None =>
        warn (MaskAdjusted input_dim mask);; mret (make_mask input_dim)
    | Some m =>
        if negb (Z.of_nat (length m) =? input_dim)
        then warn (MaskAdjusted input_dim mask);; mret (make_mask input_dim)
        else mret m
    end;
  num_stacks ←
    match num_stacks with
    | Int n => mret n
    | Float q => warn NumStacksNotInt;; mret (int_of_float q)
    end;
  let transform_list := [] in
  let transform_list :=
    for_range num_stacks
      (λ _ transform_list,
         transform_list ++
           [PiecewiseRationalQuadraticCouplingTransform
              mask net_create_fn num_bins tails tail_bounds false])
      transform_list in
  let transform_list := transform_list ++ [ReversePermutation input_dim] in
  mret (CompositeTransform transform_list).

(** [base_density] is any Python value; the body rebinds the name before it
    reads it. *)
Definition coupling_flow
    (input_dim : Z) (net_create_fn : option NetFn) (num_stacks : number)
    (tails : option string) (tail_bounds : number) (num_bins : Z)
    (base_density : py_value) : M flow :=
  transformer ←
    coupling_spline_transformer
      input_dim net_create_fn num_stacks tails tail_bounds num_bins None;
  let base_density := StandardNormal [input_dim] in
  let flow := Flow transformer base_density in
  mret flow.

(** *** The arguments after the adjustments at the head of
    [coupling_spline_transformer], named to state what it returns *)

Definition mask_in_use (input_dim : Z) (mask : option (list Z)) : list Z :=
  match mask with
  | None => make_mask input_dim
  | Some m =>
      if Z.of_nat (length m) =? input_dim then m else make_mask input_dim
  end.

Definition tails_in_use (tails : option string) : string :=
  match tails with None => "linear"%string | Some t => t end.

Definition stacks_in_use (num_stacks : number) : Z :=
  match num_stacks with Int n => n | Float q => int_of_float q end.

Definition warnings_issued (input_dim : Z) (mask : option (list Z))
    (num_stacks : number) : list Warning :=
  match mask with
  | None => [MaskAdjusted input_dim mask]
  | Some m =>
      if Z.of_nat (length m) =? input_dim then []
      else [MaskAdjusted input_dim mask]
  end ++
  match num_stacks with Int _ => [] | Float _ => [NumStacksNotInt] end.

End Flows.

Arguments Transform : clear implicits.
Arguments flow : clear implicits.

End flows.

(** ** [src/models/dense.py] *)

Module dense.

(** [torch.nn.Linear(in_features, out_features)]. *)
Inductive Layer : Type :=
  | Linear (in_features out_features : Z).

(** The activations: the two defaults of the constructor, or any other
    callable of the caller, known by its name only. *)
Inductive activation : Type :=
  | Identity
  | relu
  | activ (name : string).

(** A tensor is the expression that computes it: data of the caller, with the
    size of its feature dimension, or a torch operation on tensors.  The two
    normalizations are operations of torch, which the forward pass could
    apply. *)
Inductive Tensor : Type :=
  | data (name : string) (features : Z)
  | apply_linear (layer : Layer) (x : Tensor)
  | iadd (x y : Tensor)
  | apply_activ (f : activation) (x : Tensor)
  | layer_norm (x : Tensor)
  | batch_norm (x : Tensor).

(** The instance attributes.  [layers] is a reference: the list of the caller
    when one was passed.  [contextual] is set only for a context. *)
Record DenseNet : Type := mkDenseNet {
  ipdim : Z;
  opdim : Z;
  op_activ : activation;
  int_activ : activation;
  context : option Z;
  layernorm : py_value;
  batchnorm : py_value;
  islast : py_value;
  layers : loc;
  contextual : option Layer;
  hidden : list Layer
}.

(** [kwargs[k] if k in kwargs else dflt]. *)
Definition kwarg (kwargs : gmap string py_value) (k : string)
    (dflt : py_value) : py_value :=
  match kwargs !! k with
  | Some v => v
  | None => dflt
  end.

(** [[Linear(layers[i], layers[i + 1]) for i in range(len(layers) - 1)]]. *)
Definition linear_pairs (layers : list Z) : outcome (list Layer) :=
  mapM (λ i, a ← getitem layers i; b ← getitem layers (i + 1);
             mret (Linear a b))
       (range (Z.of_nat (length layers) - 1)).

Definition __init__
    (input_dim output_dim : Z) (context : option Z) (node_list : option loc)
    (op_activ int_activ : activation) (kwargs : gmap string py_value)
    : M DenseNet :=
  node_list ←
    match node_list with
    | None => new_list [10; 10]
    | Some r => mret r
    end;
  let layernorm := kwarg kwargs "layernorm" (PyBool false) in
  let batchnorm := kwarg kwargs "batchnorm" (PyBool false) in
  let islast := kwarg kwargs "islast" (PyBool true) in
  let layers := node_list in
  (if truthy islast then iadd_list layers [output_dim] else mret ());;
  '(layernorm, batchnorm) ←
    (if truthy layernorm && truthy batchnorm
     then warn BothNorms;; mret (PyInt 0, PyInt 1)
     else mret (layernorm, batchnorm));
  contextual ←
    match context with
    | Some c =>
        l ← read_list layers; l0 ← lift (getitem l 0);
        mret (Some (Linear c l0))
    | None => mret None
    end;
  l ← read_list layers;
  l0 ← lift (getitem l 0);
  let hidden := [Linear input_dim l0] in
  more ← lift (linear_pairs l);
  let hidden := hidden ++ more in
  mret (mkDenseNet input_dim output_dim op_activ int_activ context
          layernorm batchnorm islast layers contextual hidden).

(** [self.contextual(context)]; the attribute is missing when the network was
    built without a context. *)
Definition call_contextual (self : DenseNet) (context : Tensor)
    : outcome Tensor :=
  match contextual self with
  | Some l => Returned (apply_linear l context)
  | None => Raised AttributeError
  end.

(** The loop of [forward] over [enumerate(self.hidden[:-1])], from index [i]. *)
Fixpoint forward_loop (self : DenseNet) (context : option Tensor) (i : Z)
    (ls : list Layer) (x : Tensor) : outcome Tensor :=
  match ls with
  | [] => mret x
  | layer :: ls' =>
      let x := apply_linear layer x in
      x ← match context with
          | Some c =>
              if i =? 0
              then t ← call_contextual self c; mret (iadd x t)
              else mret x
          | None => mret x
          end;
      let x := apply_activ (int_activ self) x in
      forward_loop self context (i + 1) ls' x
  end.

Definition forward (self : DenseNet) (x : Tensor) (context : option Tensor)
    : outcome Tensor :=
  x ← forward_loop self context 0 (slice_to (hidden self) (-1)) x;
  last ← getitem (hidden self) (-1);
  mret (apply_activ (op_activ self) (apply_linear last x)).

(** *** The arguments after the adjustments at the head of [__init__], named
    to state what it returns *)

Definition layers_in_use (kwargs : gmap string py_value) (node_list : list Z)
    (output_dim : Z) : list Z :=
  if truthy (kwarg kwargs "islast" (PyBool true))
  then node_list ++ [output_dim]
  else node_list.

Definition both_norms (kwargs : gmap string py_value) : bool :=
  truthy (kwarg kwargs "layernorm" (PyBool false))
  && truthy (kwarg kwargs "batchnorm" (PyBool false)).

Definition layernorm_in_use (kwargs : gmap string py_value) : py_value :=
  if both_norms kwargs then PyInt 0
  else kwarg kwargs "layernorm" (PyBool false).

Definition batchnorm_in_use (kwargs : gmap string py_value) : py_value :=
  if both_norms kwargs then PyInt 1
  else kwarg kwargs "batchnorm" (PyBool false).

(** *** What is observed of a network and of a tensor *)

(** The torch shape rules for the feature dimension: a linear layer wants its
    [in_features] and gives its [out_features], an in-place sum wants equal
    sizes, and activations and normalizations are taken elementwise, keeping
    the size. *)
Fixpoint features (t : Tensor) : option Z :=
  match t with
  | data _ n => Some n
  | apply_linear (Linear i o) x =>
      n ← features x; if n =? i then Some o else None
  | iadd x y =>
      n ← features x; m ← features y; if n =? m then Some n else None
  | apply_activ _ x => features x
  | layer_norm x => features x
  | batch_norm x => features x
  end.

Fixpoint applies_layer_norm (t : Tensor) : bool :=
  match t with
  | data _ _ => false
  | apply_linear _ x => applies_layer_norm x
  | iadd x y => applies_layer_norm x || applies_layer_norm y
  | apply_activ _ x => applies_layer_norm x
  | layer_norm _ => true
  | batch_norm x => applies_layer_norm x
  end.

Fixpoint applies_batch_norm (t : Tensor) : bool :=
  match t with
  | data _ _ => false
  | apply_linear _ x => applies_batch_norm x
  | iadd x y => applies_batch_norm x || applies_batch_norm y
  | apply_activ _ x => applies_batch_norm x
  | layer_norm x => applies_batch_norm x
  | batch_norm _ => true
  end.

Definition applies_norm (t : Tensor) : bool :=
  applies_layer_norm t || applies_batch_norm t.

(** The spec's words for the layer sequence: linear layers chained through the
    widths [d, d1, ..., dn], as [d->d1, d1->d2, ...]. *)
Fixpoint linear_chain (d : Z) (ds : list Z) : list Layer :=
  match ds with
  | [] => []
  | d' :: ds' => Linear d d' :: linear_chain d' ds'
  end.

(** The spec's words for the forward pass over the layers [l :: ls]: each
    layer in order, [int_a] after every layer but the last, [op_a] after the
    last. *)
Fixpoint feed_forward (int_a op_a : activation) (l : Layer) (ls : list Layer)
    (x : Tensor) : Tensor :=
  match ls with
  | [] => apply_activ op_a (apply_linear l x)
  | l' :: ls' =>
      feed_forward int_a op_a l' ls' (apply_activ int_a (apply_linear l x))
  end.

(** The value of a [node_list] argument in a world: [None], or the content of
    the list it refers to. *)
Definition node_list_value (w : World) (node_list : option loc)
    : option (option (list Z)) :=
  match node_list with
  | None => Some None
  | Some r => Some <$> heap w !! r
  end.

(** The structure of a network: its attributes, with the list behind [layers]
    in place of the reference. *)
Record Structure : Type := mkStructure {
  s_ipdim : Z;
  s_opdim : Z;
  s_op_activ : activation;
  s_int_activ : activation;
  s_context : option Z;
  s_layernorm : py_value;
  s_batchnorm : py_value;
  s_islast : py_value;
  s_layers : option (list Z);
  s_contextual : option Layer;
  s_hidden : list Layer
}.

Definition structure (w : World) (net : DenseNet) : Structure :=
  mkStructure (ipdim net) (opdim net) (op_activ net) (int_activ net)
    (context net) (layernorm net) (batchnorm net) (islast net)
    (heap w !! layers net) (contextual net) (hidden net).

(** The outcome of a constructor call, the network seen through its
    structure in the world the call leaves. *)
Definition constructed (r : outcome DenseNet * World) : outcome Structure :=
  match r with
  | (Returned net, w) => Returned (structure w net)
  | (Raised e, _) => Raised e
  end.

End dense.

(** ** The two modules together *)

(** A network factory as the flows take it: given the numbers of input and
    output features it builds a [DenseNet] with the defaults of every other
    argument, as [lambda i, o: DenseNet(i, o)] does. *)
Definition dense_net_factory : Z → Z → M dense.DenseNet :=
  λ i o, dense.__init__ i o None None dense.Identity dense.relu ∅.

(** A world with two list objects and no warning yet. *)
Definition sample_world : World :=
  mkWorld (<[1%positive := [7; 8]]> (<[2%positive := []]> ∅)) [].

(** Another world, as earlier calls could leave it: other list objects, a
    list equal to the first of [sample_world] at another place, and warnings
    in the log. *)
Definition later_world : World :=
  mkWorld (<[5%positive := [7; 8]]> (<[1%positive := [3; 7; 8; 2]]> ∅))
    [NoNetCreateFn; BothNorms].

(** The same with one list of the caller for every network, as
    [lambda i, o: DenseNet(i, o, node_list=nl)] does. *)
Definition shared_list_factory (nl : loc) : Z → Z → M dense.DenseNet :=
  λ i o, dense.__init__ i o None (Some nl) dense.Identity dense.relu ∅.

(** ** What nflows does with the constructor calls

    Modelled from the nflows library, which the repository imports and does
    not contain.  [flows.coupling_spline_transformer] and
    [flows.coupling_flow] above give the constructor calls that the lines of
    the two functions issue, as terms.  Here is what nflows does when these
    calls run, as far as the store, the warnings and the exceptions go:
    - a coupling transform refuses an empty mask with [ValueError]; else it
      counts the identity features (mask entries [<= 0]) and the transformed
      features (entries [> 0]) and runs the network factory once, on the
      number of identity features and the number of transformed features
      times [3 * num_bins - 1] for linear tails, [3 * num_bins + 1]
      otherwise; the network the factory returns is held by the transform,
      and what the factory raises goes through;
    - [ReversePermutation] refuses a number of features that is not positive
      with [ValueError];
    - [CompositeTransform], [StandardNormal] and [Flow] hold what they are
      given.
    The repository passes [apply_unconditional_transform=False] always, for
    which nflows builds nothing more. *)

Module nflows.
Import flows.

(** An outcome seen through a view of what is returned. *)
Definition seen {A B : Type} (view : A → B) (o : outcome A) : outcome B :=
  match o with
  | Returned a => Returned (view a)
  | Raised e => Raised e
  end.

(** The objects built, over the type of the networks that the factory
    makes. *)
#[warnings="-register-all"]
Inductive Built (Net : Type) : Type :=
  | BuiltCoupling (mask : list Z) (transform_net : Net) (num_bins : Z)
      (tails : string) (tail_bound : number)
  | BuiltReverse (features : Z)
  | BuiltComposite (transforms : list (Built Net)).
Arguments BuiltCoupling {Net} mask transform_net num_bins tails tail_bound.
Arguments BuiltReverse {Net} features.
Arguments BuiltComposite {Net} transforms.

Inductive BuiltFlow (Net : Type) : Type :=
  | BuiltFlowOf (transform : Built Net) (distribution : Distribution).
Arguments BuiltFlowOf {Net} transform distribution.

Definition transform_dim_multiplier (tails : string) (num_bins : Z) : Z :=
  if String.eqb tails "linear" then num_bins * 3 - 1 else num_bins * 3 + 1.

Definition num_identity_features (mask : list Z) : Z :=
  Z.of_nat (length (filter (λ v : Z, v ≤ 0) mask)).

Definition num_transform_features (mask : list Z) : Z :=
  Z.of_nat (length (filter (λ v : Z, 0 < v) mask)).

(** Running the constructor calls of a term, in the order Python runs
    them. *)
Fixpoint construct {Net : Type} (t : Transform (Z → Z → M Net))
    : M (Built Net) :=
  match t with
  | PiecewiseRationalQuadraticCouplingTransform mask fn num_bins tails
      tail_bound _ =>
      match mask with
      | [] => raise ValueError
      | _ :: _ =>
          transform_net ←
            fn (num_identity_features mask)
               (num_transform_features mask
                * transform_dim_multiplier tails num_bins);
          mret (BuiltCoupling mask transform_net num_bins tails tail_bound)
      end
  | ReversePermutation features =>
      if 0 <? features then mret (BuiltReverse features)
      else raise ValueError
  | CompositeTransform transforms =>
      built ← mapM construct transforms;
      mret (BuiltComposite built)
  end.

Definition construct_flow {Net : Type} (f : flow (Z → Z → M Net))
    : M (BuiltFlow Net) :=
  match f with
  | Flow t d => built ← construct t; mret (BuiltFlowOf built d)
  end.

(** A built transform seen through a view of its networks. *)
Fixpoint through {Net V : Type} (view : Net → V) (b : Built Net) : Built V :=
  match b with
  | BuiltCoupling mask net num_bins tails tail_bound =>
      BuiltCoupling mask (view net) num_bins tails tail_bound
  | BuiltReverse features => BuiltReverse features
  | BuiltComposite transforms => BuiltComposite (through view <$> transforms)
  end.

Definition flow_through {Net V : Type} (view : Net → V) (f : BuiltFlow Net)
    : BuiltFlow V :=
  match f with
  | BuiltFlowOf b d => BuiltFlowOf (through view b) d
  end.

End nflows.

(** The two functions of [flows] as Python runs them: the lines of the
    function give the constructor calls, and nflows runs them in that order;
    the function does nothing else between them (its warnings and [exit]
    come before the first). *)
Definition coupling_spline_transformer_call {Net : Type}
    (input_dim : Z) (net_create_fn : option (Z → Z → M Net))
    (num_stacks : number) (tails : option string) (tail_bounds : number)
    (num_bins : Z) (mask : option (list Z)) : M (nflows.Built Net) :=
  t ← flows.coupling_spline_transformer input_dim net_create_fn num_stacks
        tails tail_bounds num_bins mask;
  nflows.construct t.

Definition coupling_flow_call {Net : Type}
    (input_dim : Z) (net_create_fn : option (Z → Z → M Net))
    (num_stacks : number) (tails : option string) (tail_bounds : number)
    (num_bins : Z) (base_density : py_value) : M (nflows.BuiltFlow Net) :=
  f ← flows.coupling_flow input_dim net_create_fn num_stacks tails
        tail_bounds num_bins base_density;
  nflows.construct_flow f.

(** * Results *)

(** ** The runtime *)

Lemma for_range_append {A : Type} (x : A) (n : Z) (s : list A) :
  for_range n (λ _ s, s ++ [x]) s = s ++ replicate (Z.to_nat n) x.
Proof.
  unfold for_range, range.
  generalize 0%nat as k. revert s.
  induction (Z.to_nat n) as [|m IH]; intros s k; simpl.
  - by rewrite app_nil_r.
  - rewrite IH. by rewrite <- app_assoc.
Qed.

Lemma mapM_cons {A B : Type} (f : A → outcome B) (x : A) (xs : list A) :
  mapM f (x :: xs) = (y ← f x; k ← mapM f xs; mret (y :: k)).
Proof. reflexivity. Qed.

Lemma getitem_lookup {A : Type} (l : list A) (k : nat) (v : A) :
  l !! k = Some v → getitem l (Z.of_nat k) = Returned v.
Proof.
  intros H. unfold getitem. cbv zeta.
  rewrite (proj2 (Z.ltb_ge (Z.of_nat k) 0)) by lia.
  rewrite (proj2 (Z.ltb_ge (Z.of_nat k) 0)) by lia.
  by rewrite Nat2Z.id, H.
Qed.

Lemma getitem_last {A : Type} (l : list A) (v : A) :
  getitem (l ++ [v]) (-1) = Returned v.
Proof.
  unfold getitem. simpl. rewrite length_app. simpl.
  rewrite (proj2 (Z.ltb_ge (Z.of_nat (length l + 1) + -1) 0)) by lia.
  replace (Z.to_nat (Z.of_nat (length l + 1) + -1)) with (length l) by lia.
  by rewrite list_lookup_middle.
Qed.

Lemma slice_to_last {A : Type} (l : list A) (v : A) :
  slice_to (l ++ [v]) (-1) = l.
Proof.
  unfold slice_to. simpl. rewrite length_app. simpl.
  replace (Z.to_nat (Z.max 0 (Z.of_nat (length l + 1) + -1)))
    with (length l) by lia.
  by rewrite take_app_length.
Qed.

(** ** [flows] *)

Module flows_results.
Import flows.

Section Flows.
Context {NetFn : Type}.

Abbreviation rq_spline := (@PiecewiseRationalQuadraticCouplingTransform NetFn).

(** [np.ceil(input_dim / 2)] is the integer half, rounded up. *)
Lemma ceil_half (input_dim : Z) :
  Qceiling (inject_Z input_dim / 2) = (input_dim + 1) `div` 2.
Proof.
  unfold Qceiling, Qfloor, Qdiv, Qmult, Qinv, Qopp, inject_Z. simpl.
  Z.div_mod_to_equations. lia.
Qed.

Lemma list_mul_singleton {A : Type} (x : A) (n : Z) :
  list_mul [x] n = replicate (Z.to_nat n) x.
Proof.
  unfold list_mul. induction (Z.to_nat n) as [|m IH]; simpl; [done|].
  by rewrite IH.
Qed.

Lemma make_mask_eq (input_dim : Z) :
  make_mask input_dim =
    replicate (Z.to_nat ((input_dim + 1) `div` 2)) 1 ++
    replicate (Z.to_nat (input_dim - (input_dim + 1) `div` 2)) 0.
Proof.
  unfold make_mask. by rewrite !list_mul_singleton, ceil_half.
Qed.

(** For a dimension that is not negative, the mask that [make_mask] makes has
    that many entries. *)
Lemma make_mask_length (input_dim : Z) :
  0 ≤ input_dim → Z.of_nat (length (make_mask input_dim)) = input_dim.
Proof.
  intros H. rewrite make_mask_eq, length_app, !length_replicate.
  Z.div_mod_to_equations. lia.
Qed.

(** What a call with a network factory does, in full. *)
Lemma coupling_spline_transformer_run
    (input_dim : Z) (fn : NetFn) (num_stacks : number) (tails : option string)
    (tail_bounds : number) (num_bins : Z) (mask : option (list Z))
    (w : World) :
  coupling_spline_transformer input_dim (Some fn) num_stacks tails tail_bounds
    num_bins mask w =
  (Returned
     (CompositeTransform
        (replicate (Z.to_nat (stacks_in_use num_stacks))
           (rq_spline (mask_in_use input_dim mask) fn num_bins
              (tails_in_use tails) tail_bounds false)
         ++ [ReversePermutation input_dim])),
   mkWorld (heap w)
     (warnings w ++ warnings_issued input_dim mask num_stacks)).
Proof.
  unfold coupling_spline_transformer, warnings_issued, mask_in_use,
    stacks_in_use, tails_in_use.
  destruct w as [h ws].
  destruct mask as [m|]; [destruct (Z.of_nat (length m) =? input_dim)|];
    destruct num_stacks as [n|q];
    cbv beta iota zeta delta [mbind M_bind mret M_ret warn negb heap warnings];
    rewrite for_range_append; simpl;
    rewrite ?app_nil_r, <- ?app_assoc; reflexivity.
Qed.

(** What a call without a network factory does. *)
Lemma coupling_spline_transformer_exit
    (input_dim : Z) (num_stacks : number) (tails : option string)
    (tail_bounds : number) (num_bins : Z) (mask : option (list Z))
    (w : World) :
  coupling_spline_transformer (NetFn := NetFn) input_dim None num_stacks tails
    tail_bounds num_bins mask w =
  (Raised SystemExit, mkWorld (heap w) (warnings w ++ [NoNetCreateFn])).
Proof. reflexivity. Qed.


(** C2: the [base_density] argument of [coupling_flow] has no effect: two
    calls that differ in it only do the same, and the flow returned for a
    network factory has the base distribution [StandardNormal([input_dim])]
    whatever was passed. *)
Theorem coupling_flow_base_density_unused :
  (∀ (input_dim : Z) (net_create_fn : option NetFn) (num_stacks : number)
     (tails : option string) (tail_bounds : number) (num_bins : Z)
     (base_density1 base_density2 : py_value) (w : World),
     coupling_flow input_dim net_create_fn num_stacks tails tail_bounds
       num_bins base_density1 w =
     coupling_flow input_dim net_create_fn num_stacks tails tail_bounds
       num_bins base_density2 w)
  ∧ (∀ (input_dim : Z) (fn : NetFn) (num_stacks : number)
       (tails : option string) (tail_bounds : number) (num_bins : Z)
       (base_density : py_value) (w : World),
       ∃ (f : flow NetFn) (w' : World),
         coupling_flow input_dim (Some fn) num_stacks tails tail_bounds
           num_bins base_density w = (Returned f, w')
         ∧ flow_distribution f = StandardNormal [input_dim]).
Proof.
  split; [reflexivity|].
  intros. unfold coupling_flow.
  cbv beta iota zeta delta [mbind M_bind mret M_ret].
  rewrite coupling_spline_transformer_run.
  eexists _, _. split; reflexivity.
Qed.



Lemma mask_in_use_rejected (input_dim : Z) (mask : option (list Z))
    (num_stacks : number) :
  mask = None ∨ (∃ m, mask = Some m ∧ Z.of_nat (length m) ≠ input_dim) →
  mask_in_use input_dim mask = make_mask input_dim
  ∧ warnings_issued input_dim mask num_stacks =
      MaskAdjusted input_dim mask ::
        match num_stacks with Int _ => [] | Float _ => [NumStacksNotInt] end.
Proof.
  intros [->|(m & -> & H)]; unfold mask_in_use, warnings_issued.
  - done.
  - by rewrite (proj2 (Z.eqb_neq _ _) H).
Qed.

End Flows.


End flows_results.

(** ** [dense] *)

Module dense_results.
Import dense.

(** The comprehension over consecutive widths never raises: it gives the
    chain through them. *)
Lemma linear_pairs_from (l : list Z) (rest : list Z) (k : nat) (d : Z) :
  drop k l = d :: rest →
  mapM (λ i, a ← getitem l i; b ← getitem l (i + 1); mret (Linear a b))
       (Z.of_nat <$> seq k (length rest))
  = Returned (linear_chain d rest).
Proof.
  revert k d. induction rest as [|d' rest IH]; intros k d Hdrop; [done|].
  assert (l !! k = Some d) as Hk.
  { rewrite <- (Nat.add_0_r k), <- lookup_drop. by rewrite Hdrop. }
  assert (drop (S k) l = d' :: rest) as Hdrop'.
  { rewrite (drop_S l d k Hk) in Hdrop. by injection Hdrop. }
  assert (l !! S k = Some d') as HSk.
  { rewrite <- (Nat.add_0_r (S k)), <- lookup_drop. by rewrite Hdrop'. }
  simpl length. simpl seq. rewrite fmap_cons, mapM_cons.
  rewrite (IH (S k) d' Hdrop').
  rewrite (getitem_lookup l k d Hk).
  replace (Z.of_nat k + 1) with (Z.of_nat (S k)) by lia.
  by rewrite (getitem_lookup l (S k) d' HSk).
Qed.

Lemma linear_pairs_chain (d : Z) (rest : list Z) :
  linear_pairs (d :: rest) = Returned (linear_chain d rest).
Proof.
  unfold linear_pairs, range. simpl length.
  replace (Z.to_nat (Z.of_nat (S (length rest)) - 1)) with (length rest)
    by lia.
  by apply linear_pairs_from.
Qed.

(** What a constructor call on a list object does, in full. *)
Lemma init_run (input_dim output_dim : Z) (context : option Z) (r : loc)
    (op_activ int_activ : activation) (kwargs : gmap string py_value)
    (w : World) (ns : list Z) :
  heap w !! r = Some ns →
  __init__ input_dim output_dim context (Some r) op_activ int_activ kwargs w =
  (match layers_in_use kwargs ns output_dim with
   | [] => Raised IndexError
   | l0 :: rest =>
       Returned
         (mkDenseNet input_dim output_dim op_activ int_activ context
            (layernorm_in_use kwargs) (batchnorm_in_use kwargs)
            (kwarg kwargs "islast" (PyBool true)) r
            ((λ c, Linear c l0) <$> context)
            (Linear input_dim l0 :: linear_chain l0 rest))
   end,
   mkWorld
     (if truthy (kwarg kwargs "islast" (PyBool true))
      then <[r := ns ++ [output_dim]]> (heap w) else heap w)
     (warnings w ++ if both_norms kwargs then [BothNorms] else [])).
Proof.
  intros H. destruct w as [h ws]. simpl in H.
  unfold __init__, layers_in_use, layernorm_in_use, batchnorm_in_use,
    both_norms.
  set (il := kwarg kwargs "islast" (PyBool true)).
  set (ln := kwarg kwargs "layernorm" (PyBool false)).
  set (bn := kwarg kwargs "batchnorm" (PyBool false)).
  cbv beta iota zeta delta
    [mbind M_bind mret M_ret iadd_list read_list lift warn heap warnings].
  assert (∀ (x : Z) (l : list Z), getitem (x :: l) 0 = Returned x) as Hhd
    by reflexivity.
  destruct (truthy il); destruct (truthy ln && truthy bn); cbv beta iota;
    rewrite ?H; cbv beta iota; rewrite ?lookup_insert_eq;
    destruct ns as [|n ns']; simpl app;
    destruct context as [c|];
    repeat progress
      (cbv beta iota;
       rewrite ?H, ?lookup_insert_eq, ?Hhd, ?linear_pairs_chain);
    rewrite ?app_nil_r; reflexivity.
Qed.

(** Without a [node_list] the constructor works on a new list object
    [[10, 10]]. *)
Lemma init_default (input_dim output_dim : Z) (context : option Z)
    (op_activ int_activ : activation) (kwargs : gmap string py_value)
    (w : World) :
  __init__ input_dim output_dim context None op_activ int_activ kwargs w =
  __init__ input_dim output_dim context (Some (fresh (dom (heap w))))
    op_activ int_activ kwargs
    (mkWorld (<[fresh (dom (heap w)) := [10; 10]]> (heap w)) (warnings w)).
Proof. reflexivity. Qed.

(** A reference that the store does not hold makes the constructor raise. *)
Lemma init_dangling (input_dim output_dim : Z) (context : option Z) (r : loc)
    (op_activ int_activ : activation) (kwargs : gmap string py_value)
    (w : World) :
  heap w !! r = None →
  (__init__ input_dim output_dim context (Some r) op_activ int_activ kwargs
     w).1 = Raised DanglingReference.
Proof.
  intros H. destruct w as [h ws]. simpl in H.
  unfold __init__.
  cbv beta iota zeta delta
    [mbind M_bind mret M_ret iadd_list read_list lift warn heap warnings].
  destruct (truthy (kwarg kwargs "islast" (PyBool true)));
    destruct (truthy (kwarg kwargs "layernorm" (PyBool false))
              && truthy (kwarg kwargs "batchnorm" (PyBool false)));
    destruct context as [c|];
    repeat progress (cbv beta iota; rewrite ?H);
    reflexivity.
Qed.

(** The structure of the network a constructor call makes depends on the
    content of the list only, not on the reference nor on the rest of the
    world. *)
Lemma init_constructed (input_dim output_dim : Z) (context : option Z)
    (r : loc) (op_activ int_activ : activation)
    (kwargs : gmap string py_value) (w : World) (ns : list Z) :
  heap w !! r = Some ns →
  constructed
    (__init__ input_dim output_dim context (Some r) op_activ int_activ
       kwargs w) =
  match layers_in_use kwargs ns output_dim with
  | [] => Raised IndexError
  | l0 :: rest =>
      Returned
        (mkStructure input_dim output_dim op_activ int_activ context
           (layernorm_in_use kwargs) (batchnorm_in_use kwargs)
           (kwarg kwargs "islast" (PyBool true))
           (Some (layers_in_use kwargs ns output_dim))
           ((λ c, Linear c l0) <$> context)
           (Linear input_dim l0 :: linear_chain l0 rest))
  end.
Proof.
  intros H. rewrite (init_run _ _ _ _ _ _ _ _ _ H).
  unfold constructed, structure, layers_in_use.
  destruct (truthy (kwarg kwargs "islast" (PyBool true))).
  - destruct ns; simpl; by rewrite lookup_insert_eq.
  - destruct ns; simpl; [done|]. by rewrite H.
Qed.

(** *** The forward pass *)

Lemma split_last {A : Type} (l : A) (ls : list A) :
  ∃ (init : list A) (lst : A), l :: ls = init ++ [lst].
Proof.
  revert l. induction ls as [|a ls IH]; intros l.
  - by exists [], l.
  - destruct (IH a) as (init & lst & ->). by exists (l :: init), lst.
Qed.

(** Past the first layer the loop does not look at the context. *)
Lemma forward_loop_later (self : DenseNet) (c : Tensor) (i : Z)
    (ls : list Layer) (x : Tensor) :
  0 < i →
  forward_loop self (Some c) i ls x = forward_loop self None i ls x.
Proof.
  revert i x. induction ls as [|l ls IH]; intros i x Hi; [done|].
  simpl. rewrite (proj2 (Z.eqb_neq i 0)) by lia.
  simpl. apply IH. lia.
Qed.

(** The loop without a context, followed by the last layer, is the
    feed-forward pass of the spec. *)
Lemma forward_loop_feed (self : DenseNet) (init : list Layer) (lst : Layer) :
  ∀ (l : Layer) (ls : list Layer) (i : Z) (x : Tensor),
    l :: ls = init ++ [lst] →
    (x' ← forward_loop self None i init x;
     mret (apply_activ (op_activ self) (apply_linear lst x'))) =
    Returned (feed_forward (int_activ self) (op_activ self) l ls x).
Proof.
  induction init as [|a init IH]; intros l ls i x Heq.
  - injection Heq as -> ->. reflexivity.
  - injection Heq as -> ->.
    destruct (init ++ [lst]) as [|l' ls'] eqn:E.
    { by destruct init. }
    simpl. apply IH. done.
Qed.

Lemma forward_plain (self : DenseNet) (l : Layer) (ls : list Layer)
    (x : Tensor) :
  hidden self = l :: ls →
  forward self x None =
  Returned (feed_forward (int_activ self) (op_activ self) l ls x).
Proof.
  intros Hh. unfold forward. rewrite Hh.
  destruct (split_last l ls) as (init & lst & Heq). rewrite Heq.
  rewrite slice_to_last, getitem_last.
  rewrite <- (forward_loop_feed self init lst l ls 0 x Heq).
  by destruct (forward_loop self None 0 init x).
Qed.

(** With two layers or more, the context goes through [contextual] and is
    added to what the first layer gives, before the activation, and nowhere
    else. *)
Lemma forward_context (self : DenseNet) (l l' : Layer) (ls : list Layer)
    (cl : Layer) (x c : Tensor) :
  hidden self = l :: l' :: ls →
  contextual self = Some cl →
  forward self x (Some c) =
  Returned
    (feed_forward (int_activ self) (op_activ self) l' ls
       (apply_activ (int_activ self)
          (iadd (apply_linear l x) (apply_linear cl c)))).
Proof.
  intros Hh Hc. unfold forward. rewrite Hh.
  destruct (split_last l' ls) as (init & lst & Heq).
  rewrite Heq, app_comm_cons, slice_to_last, getitem_last.
  simpl. unfold call_contextual. rewrite Hc. simpl.
  rewrite forward_loop_later by lia.
  by rewrite <- (forward_loop_feed self init lst l' ls (0 + 1) _ Heq).
Qed.

(** With one layer only, the loop has nothing to go through and the context
    is not read. *)
Lemma forward_single (self : DenseNet) (l : Layer) (x : Tensor)
    (context : option Tensor) :
  hidden self = [l] →
  forward self x context =
  Returned (apply_activ (op_activ self) (apply_linear l x)).
Proof. intros Hh. unfold forward. by rewrite Hh. Qed.

(** The feed-forward pass over a chain of layers maps the first width to the
    last. *)
Lemma feed_forward_features (int_a op_a : activation) (ds : list Z) :
  ∀ (d dlast : Z) (l : Layer) (ls : list Layer) (x : Tensor),
    features x = Some d →
    linear_chain d (ds ++ [dlast]) = l :: ls →
    features (feed_forward int_a op_a l ls x) = Some dlast.
Proof.
  induction ds as [|d1 ds IH]; intros d dlast l ls x Hx Hc.
  - injection Hc as <- <-. simpl. rewrite Hx. simpl. by rewrite Z.eqb_refl.
  - injection Hc as <- <-.
    destruct (linear_chain d1 (ds ++ [dlast])) as [|l' ls'] eqn:E.
    { by destruct ds. }
    simpl. apply (IH d1 dlast); [|done].
    simpl. rewrite Hx. simpl. by rewrite Z.eqb_refl.
Qed.

Lemma linear_chain_length (d : Z) (ds : list Z) :
  length (linear_chain d ds) = length ds.
Proof. revert d. induction ds as [|d' ds IH]; intros d; simpl; by rewrite ?IH. Qed.

(** The loop applies linear layers, sums and activations only. *)
Lemma forward_loop_no_norm (self : DenseNet) (context : option Tensor)
    (ls : list Layer) :
  ∀ (i : Z) (x t : Tensor),
    applies_norm x = false →
    (∀ c, context = Some c → applies_norm c = false) →
    forward_loop self context i ls x = Returned t →
    applies_norm t = false.
Proof.
  induction ls as [|l ls IH]; intros i x t Hx Hc Hrun.
  - by injection Hrun as <-.
  - simpl in Hrun.
    destruct context as [c|]; [destruct (i =? 0)|]; simpl in Hrun.
    + unfold call_contextual in Hrun.
      destruct (contextual self) as [cl|]; [|done]. simpl in Hrun.
      apply IH in Hrun; [done| |done].
      specialize (Hc c eq_refl). unfold applies_norm in *. simpl.
      apply orb_false_elim in Hx as [-> ->].
      by apply orb_false_elim in Hc as [-> ->].
    + by apply IH in Hrun.
    + by apply IH in Hrun.
Qed.

Lemma forward_no_norm (self : DenseNet) (x : Tensor)
    (context : option Tensor) (t : Tensor) :
  applies_norm x = false →
  (∀ c, context = Some c → applies_norm c = false) →
  forward self x context = Returned t →
  applies_norm t = false.
Proof.
  intros Hx Hc. unfold forward.
  destruct (forward_loop self context 0 (slice_to (hidden self) (-1)) x)
    as [x'|e] eqn:E; [|done].
  apply forward_loop_no_norm in E; [|done..].
  simpl. destruct (getitem (hidden self) (-1)); [|done].
  simpl. by intros [= <-].
Qed.

(** A constructor call that returns has found a list with a first width,
    and the network is made from it. *)
Lemma init_returned (input_dim output_dim : Z) (context : option Z)
    (node_list : option loc) (op_activ int_activ : activation)
    (kwargs : gmap string py_value) (w w' : World) (net : DenseNet) :
  __init__ input_dim output_dim context node_list op_activ int_activ kwargs w
    = (Returned net, w') →
  ∃ (r : loc) (ns : list Z) (l0 : Z) (rest : list Z),
    layers_in_use kwargs ns output_dim = l0 :: rest
    ∧ net =
        mkDenseNet input_dim output_dim op_activ int_activ context
          (layernorm_in_use kwargs) (batchnorm_in_use kwargs)
          (kwarg kwargs "islast" (PyBool true)) r
          ((λ c, Linear c l0) <$> context)
          (Linear input_dim l0 :: linear_chain l0 rest).
Proof.
  assert (∀ r w0 ns, heap w0 !! r = Some ns →
            __init__ input_dim output_dim context (Some r) op_activ int_activ
              kwargs w0 = (Returned net, w') →
            ∃ (r : loc) (ns : list Z) (l0 : Z) (rest : list Z),
              layers_in_use kwargs ns output_dim = l0 :: rest
              ∧ net =
                  mkDenseNet input_dim output_dim op_activ int_activ context
                    (layernorm_in_use kwargs) (batchnorm_in_use kwargs)
                    (kwarg kwargs "islast" (PyBool true)) r
                    ((λ c, Linear c l0) <$> context)
                    (Linear input_dim l0 :: linear_chain l0 rest)) as Hsome.
  { intros r w0 ns Hr. rewrite (init_run _ _ _ _ _ _ _ _ _ Hr).
    destruct (layers_in_use kwargs ns output_dim) as [|l0 rest] eqn:E;
      [discriminate|].
    intros [= <- _]. by exists r, ns, l0, rest. }
  destruct node_list as [r|].
  - destruct (heap w !! r) as [ns|] eqn:Hr; [apply (Hsome r w ns Hr)|].
    intros Hrun.
    pose proof (init_dangling input_dim output_dim context r op_activ
                  int_activ kwargs w Hr) as Hd.
    rewrite Hrun in Hd. discriminate.
  - rewrite init_default. apply (Hsome _ _ [10; 10]).
    simpl. apply lookup_insert_eq.
Qed.

(** C3 does not hold of the code: a network built with the [layernorm]
    option (or the [batchnorm] option) set to [True] applies no such
    operation in its forward pass. *)
Lemma norm_options_not_applied :
  ¬ (∀ (input_dim output_dim : Z) (context : option Z)
       (node_list : option loc) (op_activ int_activ : activation)
       (kwargs : gmap string py_value) (w w' : World) (net : DenseNet)
       (x : Tensor) (ctx : option Tensor) (t : Tensor),
       kwargs !! "layernorm" = Some (PyBool true) →
       __init__ input_dim output_dim context node_list op_activ int_activ
         kwargs w = (Returned net, w') →
       forward net x ctx = Returned t →
       applies_layer_norm t = true)
  ∧ ¬ (∀ (input_dim output_dim : Z) (context : option Z)
         (node_list : option loc) (op_activ int_activ : activation)
         (kwargs : gmap string py_value) (w w' : World) (net : DenseNet)
         (x : Tensor) (ctx : option Tensor) (t : Tensor),
         kwargs !! "batchnorm" = Some (PyBool true) →
         __init__ input_dim output_dim context node_list op_activ int_activ
           kwargs w = (Returned net, w') →
         forward net x ctx = Returned t →
         applies_batch_norm t = true).
Proof.
  split; intros H.
  - specialize (H 3 2 None None Identity relu {["layernorm" := PyBool true]}
                  sample_world _ _ (data "x" 3) None _
                  eq_refl eq_refl eq_refl).
    discriminate.
  - specialize (H 3 2 None None Identity relu {["batchnorm" := PyBool true]}
                  sample_world _ _ (data "x" 3) None _
                  eq_refl eq_refl eq_refl).
    discriminate.
Qed.

(** C3, where the code parts from it: the constructor takes the [layernorm]
    and [batchnorm] options and only records them as attributes (1 and 0 in
    place of both when both are set); the forward pass of the network it
    returns gives a result without a context, and whatever the options it
    applies no normalization: from inputs free of normalization its result is
    free of it. *)
Theorem norm_options_recorded_only
    (input_dim output_dim : Z) (context : option Z) (node_list : option loc)
    (op_activ int_activ : activation) (kwargs : gmap string py_value)
    (w w' : World) (net : DenseNet) :
  __init__ input_dim output_dim context node_list op_activ int_activ kwargs w
    = (Returned net, w') →
  layernorm net = layernorm_in_use kwargs
  ∧ batchnorm net = batchnorm_in_use kwargs
  ∧ (∀ x : Tensor, ∃ t : Tensor, forward net x None = Returned t)
  ∧ (∀ (x : Tensor) (ctx : option Tensor) (t : Tensor),
       applies_norm x = false →
       (∀ c, ctx = Some c → applies_norm c = false) →
       forward net x ctx = Returned t →
       applies_norm t = false).
Proof.
  intros Hrun.
  destruct (init_returned _ _ _ _ _ _ _ _ _ _ Hrun)
    as (r & ns & l0 & rest & _ & ->).
  split; [done|]. split; [done|]. split.
  - intros x. eexists. by apply forward_plain.
  - intros x ctx t. apply forward_no_norm.
Qed.

(** C4: built from a list [[n1, ..., nk]] with [k >= 1] and the default
    [islast], the network has the [k + 1] linear layers
    [input_dim->n1, n1->n2, ..., nk->output_dim], and [forward(x, None)]
    applies them in this order, [int_activ] after each but the last and
    [op_activ] after the last, which gives [output_dim] features from
    [input_dim]. *)
Theorem dense_net_chain
    (input_dim output_dim : Z) (context : option Z) (r : loc)
    (op_activ int_activ : activation) (kwargs : gmap string py_value)
    (w : World) (ns : list Z) (x : Tensor) :
  heap w !! r = Some ns →
  (1 ≤ length ns)%nat →
  kwargs !! "islast" = None →
  ∃ (net : DenseNet) (w' : World) (l : Layer) (ls : list Layer) (t : Tensor),
    __init__ input_dim output_dim context (Some r) op_activ int_activ kwargs w
      = (Returned net, w')
    ∧ hidden net = linear_chain input_dim (ns ++ [output_dim])
    ∧ length (hidden net) = S (length ns)
    ∧ hidden net = l :: ls
    ∧ forward net x None = Returned t
    ∧ t = feed_forward int_activ op_activ l ls x
    ∧ (features x = Some input_dim → features t = Some output_dim).
Proof.
  intros Hr Hk Hlast.
  rewrite (init_run _ _ _ _ _ _ _ _ _ Hr).
  unfold layers_in_use, kwarg. rewrite Hlast. simpl.
  destruct ns as [|n ns]; [simpl in Hk; lia|]. simpl.
  eexists _, _, _, _, _.
  split; [reflexivity|]. simpl.
  split; [reflexivity|].
  split; [by rewrite linear_chain_length, length_app, Nat.add_comm|].
  split; [reflexivity|].
  split; [by apply forward_plain|].
  split; [reflexivity|].
  intros Hx.
  by apply (feed_forward_features int_activ op_activ (n :: ns) input_dim).
Qed.

(** With a context and a list of one width or more, [forward(x, context)]
    adds the image of the context under [contextual], a linear map into the
    first width, to what the first layer gives, before its activation, and
    nowhere else. *)
Lemma context_added_first_layer
    (input_dim output_dim c : Z) (r : loc) (op_activ int_activ : activation)
    (kwargs : gmap string py_value) (w : World) (n : Z) (ns : list Z)
    (x ctx : Tensor) :
  heap w !! r = Some (n :: ns) →
  truthy (kwarg kwargs "islast" (PyBool true)) = true →
  ∃ (net : DenseNet) (w' : World) (l : Layer) (ls : list Layer),
    __init__ input_dim output_dim (Some c) (Some r) op_activ int_activ kwargs
      w = (Returned net, w')
    ∧ contextual net = Some (Linear c n)
    ∧ linear_chain n (ns ++ [output_dim]) = l :: ls
    ∧ forward net x (Some ctx) =
      Returned
        (feed_forward int_activ op_activ l ls
           (apply_activ int_activ
              (iadd (apply_linear (Linear input_dim n) x)
                 (apply_linear (Linear c n) ctx)))).
Proof.
  intros Hr Hlast.
  rewrite (init_run _ _ _ _ _ _ _ _ _ Hr).
  unfold layers_in_use. rewrite Hlast. simpl.
  destruct (linear_chain n (ns ++ [output_dim])) as [|l ls] eqn:E.
  { by destruct ns. }
  eexists _, _, l, ls.
  split; [reflexivity|]. split; [reflexivity|]. split; [reflexivity|].
  by apply forward_context.
Qed.

(** C5, where the code parts from it: built with a context from an empty
    list, the network has one layer, [contextual] is made, and
    [forward(x, context)] gives what [forward(x, None)] gives: the context
    is not added. *)
Theorem context_ignored_single_layer
    (input_dim output_dim c : Z) (r : loc) (op_activ int_activ : activation)
    (kwargs : gmap string py_value) (w : World) (x ctx : Tensor) :
  heap w !! r = Some [] →
  truthy (kwarg kwargs "islast" (PyBool true)) = true →
  ∃ (net : DenseNet) (w' : World),
    __init__ input_dim output_dim (Some c) (Some r) op_activ int_activ kwargs
      w = (Returned net, w')
    ∧ contextual net = Some (Linear c output_dim)
    ∧ forward net x (Some ctx) =
      Returned (apply_activ op_activ (apply_linear (Linear input_dim output_dim) x))
    ∧ forward net x (Some ctx) = forward net x None.
Proof.
  intros Hr Hlast.
  rewrite (init_run _ _ _ _ _ _ _ _ _ Hr).
  unfold layers_in_use. rewrite Hlast. simpl.
  eexists _, _.
  split; [reflexivity|]. split; [reflexivity|]. split; reflexivity.
Qed.

(** C7: with [islast] true (as by default), the constructor appends
    [output_dim] to the list object of the caller, which is one longer
    afterwards and is the list the network holds; a second network built from
    the same list object then has one layer more than the first. *)
Theorem node_list_extended_in_place
    (input_dim output_dim : Z) (context : option Z) (r : loc)
    (op_activ int_activ : activation) (kwargs : gmap string py_value)
    (w : World) (ns : list Z) :
  heap w !! r = Some ns →
  truthy (kwarg kwargs "islast" (PyBool true)) = true →
  ∃ (net : DenseNet) (w' : World),
    __init__ input_dim output_dim context (Some r) op_activ int_activ kwargs w
      = (Returned net, w')
    ∧ layers net = r
    ∧ heap w' !! r = Some (ns ++ [output_dim])
    ∧ length (ns ++ [output_dim]) = S (length ns)
    ∧ ∀ (input_dim2 output_dim2 : Z) (context2 : option Z)
        (op_activ2 int_activ2 : activation)
        (kwargs2 : gmap string py_value),
        truthy (kwarg kwargs2 "islast" (PyBool true)) = true →
        ∃ (net2 : DenseNet) (w'' : World),
          __init__ input_dim2 output_dim2 context2 (Some r) op_activ2
            int_activ2 kwargs2 w' = (Returned net2, w'')
          ∧ length (hidden net2) = S (length (hidden net))
          ∧ heap w'' !! r = Some ((ns ++ [output_dim]) ++ [output_dim2]).
Proof.
  intros Hr Hlast.
  rewrite (init_run _ _ _ _ _ _ _ _ _ Hr).
  unfold layers_in_use. rewrite Hlast.
  destruct (ns ++ [output_dim]) as [|l0 rest] eqn:E.
  { by destruct ns. }
  eexists _, _. split; [reflexivity|]. simpl.
  split; [reflexivity|].
  split; [by rewrite lookup_insert_eq|].
  split.
  { change (length (l0 :: rest) = S (length ns)).
    by rewrite <- E, length_app, Nat.add_comm. }
  intros input_dim2 output_dim2 context2 op_activ2 int_activ2 kwargs2 Hlast2.
  assert (heap (mkWorld (<[r:=l0 :: rest]> (heap w))
                  (warnings w ++ (if both_norms kwargs then [BothNorms] else [])))
            !! r = Some (l0 :: rest)) as Hr2 by (simpl; apply lookup_insert_eq).
  rewrite (init_run _ _ _ _ _ _ _ _ _ Hr2).
  unfold layers_in_use. rewrite Hlast2. simpl.
  eexists _, _. split; [reflexivity|]. simpl.
  split.
  - by rewrite !linear_chain_length, length_app, Nat.add_comm.
  - by rewrite lookup_insert_eq.
Qed.

Lemma norm_options_recorded_only_witness :
  ∃ (net : DenseNet) (w' : World),
    __init__ 3 2 None None Identity relu
      (<["layernorm" := PyBool true]> {["batchnorm" := PyBool true]})
      sample_world = (Returned net, w')
    ∧ warnings w' = [BothNorms]
    ∧ layernorm_in_use
        (<["layernorm" := PyBool true]> {["batchnorm" := PyBool true]})
      = PyInt 0
    ∧ batchnorm_in_use
        (<["layernorm" := PyBool true]> {["batchnorm" := PyBool true]})
      = PyInt 1
    ∧ layernorm net =
        layernorm_in_use
          (<["layernorm" := PyBool true]> {["batchnorm" := PyBool true]})
    ∧ batchnorm net =
        batchnorm_in_use
          (<["layernorm" := PyBool true]> {["batchnorm" := PyBool true]})
    ∧ (∀ x : Tensor, ∃ t : Tensor, forward net x None = Returned t)
    ∧ (∀ (x : Tensor) (ctx : option Tensor) (t : Tensor),
         applies_norm x = false →
         (∀ c, ctx = Some c → applies_norm c = false) →
         forward net x ctx = Returned t →
         applies_norm t = false).
Proof.
  eexists _, _. split; [vm_compute; reflexivity|].
  split; [reflexivity|]. split; [reflexivity|]. split; [reflexivity|].
  eapply (norm_options_recorded_only 3 2 None None Identity relu
            (<["layernorm" := PyBool true]> {["batchnorm" := PyBool true]})
            sample_world).
  vm_compute. reflexivity.
Defined.

Lemma dense_net_chain_witness :
  ∃ (net : DenseNet) (w' : World) (l : Layer) (ls : list Layer) (t : Tensor),
    __init__ 3 2 None (Some 1%positive) Identity relu ∅ sample_world
      = (Returned net, w')
    ∧ hidden net = linear_chain 3 ([7; 8] ++ [2])
    ∧ length (hidden net) = S (length [7; 8])
    ∧ hidden net = l :: ls
    ∧ forward net (data "x" 3) None = Returned t
    ∧ t = feed_forward relu Identity l ls (data "x" 3)
    ∧ (features (data "x" 3) = Some 3 → features t = Some 2).
Proof.
  apply (dense_net_chain 3 2 None 1%positive Identity relu ∅ sample_world
           [7; 8] (data "x" 3)).
  - reflexivity.
  - simpl. lia.
  - reflexivity.
Defined.

Lemma context_ignored_single_layer_witness :
  ∃ (net : DenseNet) (w' : World),
    __init__ 3 2 (Some 4) (Some 2%positive) Identity relu ∅ sample_world
      = (Returned net, w')
    ∧ contextual net = Some (Linear 4 2)
    ∧ forward net (data "x" 3) (Some (data "context" 4)) =
      Returned (apply_activ Identity (apply_linear (Linear 3 2) (data "x" 3)))
    ∧ forward net (data "x" 3) (Some (data "context" 4)) =
      forward net (data "x" 3) None.
Proof.
  apply (context_ignored_single_layer 3 2 4 2%positive Identity relu ∅
           sample_world (data "x" 3) (data "context" 4)).
  - reflexivity.
  - reflexivity.
Defined.

Lemma node_list_extended_in_place_witness :
  ∃ (net : DenseNet) (w' : World),
    __init__ 3 2 None (Some 1%positive) Identity relu ∅ sample_world
      = (Returned net, w')
    ∧ layers net = 1%positive
    ∧ heap w' !! 1%positive = Some ([7; 8] ++ [2])
    ∧ length ([7; 8] ++ [2]) = S (length [7; 8])
    ∧ ∀ (input_dim2 output_dim2 : Z) (context2 : option Z)
        (op_activ2 int_activ2 : activation)
        (kwargs2 : gmap string py_value),
        truthy (kwarg kwargs2 "islast" (PyBool true)) = true →
        ∃ (net2 : DenseNet) (w'' : World),
          __init__ input_dim2 output_dim2 context2 (Some 1%positive)
            op_activ2 int_activ2 kwargs2 w' = (Returned net2, w'')
          ∧ length (hidden net2) = S (length (hidden net))
          ∧ heap w'' !! 1%positive = Some (([7; 8] ++ [2]) ++ [output_dim2]).
Proof.
  apply (node_list_extended_in_place 3 2 None 1%positive Identity relu ∅
           sample_world [7; 8]).
  - reflexivity.
  - reflexivity.
Defined.

End dense_results.

(** * Further properties of the code *)

(** ** [flows]: masks, stack counts, warnings and the store *)

Module flows_more.
Import flows flows_results.

Lemma make_mask_nonpositive (input_dim : Z) :
  input_dim ≤ 0 → make_mask input_dim = [].
Proof.
  intros H. rewrite make_mask_eq.
  replace (Z.to_nat ((input_dim + 1) `div` 2)) with 0%nat
    by (Z.div_mod_to_equations; lia).
  replace (Z.to_nat (input_dim - (input_dim + 1) `div` 2)) with 0%nat
    by (Z.div_mod_to_equations; lia).
  reflexivity.
Qed.


(** X1: for a dimension that is not negative, [make_mask] gives a list of
    that length, ones first and zeros after, with as many ones as zeros or
    one more. *)
Theorem make_mask_shape (input_dim : Z) :
  0 ≤ input_dim →
  ∃ ones zeros : nat,
    make_mask input_dim = replicate ones 1 ++ replicate zeros 0
    ∧ Z.of_nat (ones + zeros) = input_dim
    ∧ (ones = zeros ∨ ones = S zeros)
    ∧ Z.of_nat (length (make_mask input_dim)) = input_dim.
Proof.
  intros H.
  exists (Z.to_nat ((input_dim + 1) `div` 2)),
         (Z.to_nat (input_dim - (input_dim + 1) `div` 2)).
  split; [apply make_mask_eq|].
  split; [Z.div_mod_to_equations; lia|].
  split; [Z.div_mod_to_equations; lia|].
  rewrite make_mask_eq, length_app, !length_replicate.
  Z.div_mod_to_equations; lia.
Qed.

Section Flows.
Context {NetFn : Type}.

Abbreviation rq_spline := (@PiecewiseRationalQuadraticCouplingTransform NetFn).

(** X4: [coupling_flow] passes no mask on, so with a network factory it
    always warns that the mask is adjusted, and the flow it returns is built
    on [make_mask(input_dim)]. *)
Theorem coupling_flow_always_adjusts_mask
    (input_dim : Z) (fn : NetFn) (num_stacks : number) (tails : option string)
    (tail_bounds : number) (num_bins : Z) (base_density : py_value)
    (w : World) :
  ∃ w' : World,
    coupling_flow input_dim (Some fn) num_stacks tails tail_bounds num_bins
      base_density w =
    (Returned
       (Flow
          (CompositeTransform
             (replicate (Z.to_nat (stacks_in_use num_stacks))
                (rq_spline (make_mask input_dim) fn num_bins
                   (tails_in_use tails) tail_bounds false)
              ++ [ReversePermutation input_dim]))
          (StandardNormal [input_dim])),
     w')
    ∧ warnings w' =
        warnings w ++
          MaskAdjusted input_dim None ::
            match num_stacks with
            | Int _ => []
            | Float _ => [NumStacksNotInt]
            end.
Proof.
  unfold coupling_flow.
  cbv beta iota zeta delta [mbind M_bind mret M_ret].
  rewrite coupling_spline_transformer_run.
  by eexists.
Qed.

(** X5: with an int [num_stacks] that is zero or negative the loop does not
    run: the composite holds the [ReversePermutation] alone. *)
Theorem no_stack_without_positive_count
    (input_dim : Z) (fn : NetFn) (num_stacks : Z) (tails : option string)
    (tail_bounds : number) (num_bins : Z) (mask : option (list Z))
    (w : World) :
  num_stacks ≤ 0 →
  (coupling_spline_transformer input_dim (Some fn) (Int num_stacks) tails
     tail_bounds num_bins mask w).1 =
  Returned (CompositeTransform [ReversePermutation input_dim]).
Proof.
  intros H. rewrite coupling_spline_transformer_run. simpl.
  by replace (Z.to_nat num_stacks) with 0%nat by lia.
Qed.



End Flows.

Lemma make_mask_shape_witness :
  0 ≤ 5
  ∧ ∃ ones zeros : nat,
      make_mask 5 = replicate ones 1 ++ replicate zeros 0
      ∧ Z.of_nat (ones + zeros) = 5
      ∧ (ones = zeros ∨ ones = S zeros)
      ∧ Z.of_nat (length (make_mask 5)) = 5.
Proof.
  split; [lia|]. apply (make_mask_shape 5). lia.
Defined.

Lemma no_stack_without_positive_count_witness :
  -2 ≤ 0
  ∧ (coupling_spline_transformer 5 (Some dense_net_factory) (Int (-2)) None
       (Float 1) 8 None sample_world).1 =
    Returned (CompositeTransform [ReversePermutation 5]).
Proof.
  split; [lia|].
  apply (no_stack_without_positive_count 5 dense_net_factory (-2) None
           (Float 1) 8 None sample_world).
  lia.
Defined.


End flows_more.

(** ** [dense]: the store, the options, errors and shapes *)

Module dense_more.
Import dense dense_results.

(** What a constructor call on a list object leaves in the world. *)
Lemma init_run_world (input_dim output_dim : Z) (context : option Z) (r : loc)
    (op_activ int_activ : activation) (kwargs : gmap string py_value)
    (w : World) (ns : list Z) :
  heap w !! r = Some ns →
  (__init__ input_dim output_dim context (Some r) op_activ int_activ kwargs
     w).2 =
  mkWorld
    (if truthy (kwarg kwargs "islast" (PyBool true))
     then <[r := ns ++ [output_dim]]> (heap w) else heap w)
    (warnings w ++ if both_norms kwargs then [BothNorms] else []).
Proof. intros H. by rewrite (init_run _ _ _ _ _ _ _ _ _ H). Qed.

Lemma init_run_store (input_dim output_dim : Z) (context : option Z) (r : loc)
    (op_activ int_activ : activation) (kwargs : gmap string py_value)
    (w : World) (ns : list Z) :
  heap w !! r = Some ns →
  heap (__init__ input_dim output_dim context (Some r) op_activ int_activ
          kwargs w).2 !! r = Some (layers_in_use kwargs ns output_dim)
  ∧ ∀ r' : loc, r' ≠ r →
      heap (__init__ input_dim output_dim context (Some r) op_activ int_activ
              kwargs w).2 !! r' = heap w !! r'.
Proof.
  intros H. rewrite (init_run_world _ _ _ _ _ _ _ _ _ H).
  unfold layers_in_use. simpl.
  destruct (truthy (kwarg kwargs "islast" (PyBool true))).
  - split; [apply lookup_insert_eq|].
    intros r' Hne. by apply lookup_insert_ne.
  - by split.
Qed.

(** A list object made for the call is at a place the store did not hold. *)
Lemma fresh_not_held (w : World) : heap w !! fresh (dom (heap w)) = None.
Proof. apply not_elem_of_dom, is_fresh. Qed.

(** A call that returns, with the network and the world it leaves: the list
    the network holds is the list of the call with [output_dim] appended if
    [islast], every other list is as before, and the one warning is that of
    both normalizations. *)
Lemma init_returned_world (input_dim output_dim : Z) (context : option Z)
    (node_list : option loc) (op_activ int_activ : activation)
    (kwargs : gmap string py_value) (w w' : World) (net : DenseNet) :
  __init__ input_dim output_dim context node_list op_activ int_activ kwargs w
    = (Returned net, w') →
  ∃ (ns : list Z) (l0 : Z) (rest : list Z),
    layers_in_use kwargs ns output_dim = l0 :: rest
    ∧ match node_list with
      | Some r => layers net = r ∧ heap w !! r = Some ns
      | None => heap w !! layers net = None ∧ ns = [10; 10]
      end
    ∧ net =
        mkDenseNet input_dim output_dim op_activ int_activ context
          (layernorm_in_use kwargs) (batchnorm_in_use kwargs)
          (kwarg kwargs "islast" (PyBool true)) (layers net)
          ((λ c, Linear c l0) <$> context)
          (Linear input_dim l0 :: linear_chain l0 rest)
    ∧ heap w' !! layers net = Some (l0 :: rest)
    ∧ (∀ r' : loc, r' ≠ layers net → is_Some (heap w !! r') →
         heap w' !! r' = heap w !! r')
    ∧ warnings w' =
        warnings w ++ if both_norms kwargs then [BothNorms] else [].
Proof.
  destruct node_list as [r|].
  - destruct (heap w !! r) as [ns|] eqn:Hr.
    + intros Hrun.
      pose proof (init_run_store input_dim output_dim context r op_activ
                    int_activ kwargs w ns Hr) as [Hat Hother].
      pose proof (init_run_world input_dim output_dim context r op_activ
                    int_activ kwargs w ns Hr) as Hw.
      rewrite Hrun in Hat, Hother, Hw. simpl in Hat, Hother, Hw.
      rewrite (init_run _ _ _ _ _ _ _ _ _ Hr) in Hrun.
      destruct (layers_in_use kwargs ns output_dim) as [|l0 rest] eqn:E;
        [discriminate|].
      injection Hrun as <- _.
      exists ns, l0, rest. simpl.
      split; [done|]. split; [done|]. split; [done|]. split; [done|].
      split; [intros r' Hne _; by apply Hother|by rewrite Hw].
    + intros Hrun.
      pose proof (init_dangling input_dim output_dim context r op_activ
                    int_activ kwargs w Hr) as Hd.
      rewrite Hrun in Hd. discriminate.
  - rewrite init_default. intros Hrun.
    set (r := fresh (dom (heap w))) in *.
    set (w0 := mkWorld (<[r := [10; 10]]> (heap w)) (warnings w)) in *.
    assert (heap w0 !! r = Some [10; 10]) as Hr
      by (simpl; apply lookup_insert_eq).
    pose proof (init_run_store input_dim output_dim context r op_activ
                  int_activ kwargs w0 [10; 10] Hr) as [Hat Hother].
    pose proof (init_run_world input_dim output_dim context r op_activ
                  int_activ kwargs w0 [10; 10] Hr) as Hw.
    rewrite Hrun in Hat, Hother, Hw. simpl in Hat, Hother, Hw.
    rewrite (init_run _ _ _ _ _ _ _ _ _ Hr) in Hrun.
    destruct (layers_in_use kwargs [10; 10] output_dim) as [|l0 rest] eqn:E;
      [discriminate|].
    injection Hrun as <- _.
    exists [10; 10], l0, rest. simpl.
    split; [done|]. split; [split; [apply fresh_not_held|done]|].
    split; [done|]. split; [done|].
    split; [|by rewrite Hw].
    intros r' Hne _. rewrite (Hother r' Hne). by apply lookup_insert_ne.
Qed.

(** What a call without a [node_list] does when [islast] is true. *)
Lemma init_default_run (input_dim output_dim : Z) (context : option Z)
    (op_activ int_activ : activation) (kwargs : gmap string py_value)
    (w : World) :
  truthy (kwarg kwargs "islast" (PyBool true)) = true →
  __init__ input_dim output_dim context None op_activ int_activ kwargs w =
  (Returned
     (mkDenseNet input_dim output_dim op_activ int_activ context
        (layernorm_in_use kwargs) (batchnorm_in_use kwargs)
        (kwarg kwargs "islast" (PyBool true)) (fresh (dom (heap w)))
        ((λ c, Linear c 10) <$> context)
        [Linear input_dim 10; Linear 10 10; Linear 10 output_dim]),
   mkWorld
     (<[fresh (dom (heap w)) := [10; 10; output_dim]]>
        (<[fresh (dom (heap w)) := [10; 10]]> (heap w)))
     (warnings w ++ if both_norms kwargs then [BothNorms] else [])).
Proof.
  intros Hlast. rewrite init_default.
  rewrite (init_run _ _ _ _ _ _ _ _ [10; 10]);
    [|simpl; apply lookup_insert_eq].
  unfold layers_in_use. by rewrite Hlast.
Qed.

Lemma forward_missing_contextual (self : DenseNet) (l l' : Layer)
    (ls : list Layer) (x c : Tensor) :
  hidden self = l :: l' :: ls →
  contextual self = None →
  forward self x (Some c) = Raised AttributeError.
Proof.
  intros Hh Hc. unfold forward. rewrite Hh.
  destruct (split_last l' ls) as (init & lst & Heq).
  rewrite Heq, app_comm_cons, slice_to_last.
  simpl. unfold call_contextual. by rewrite Hc.
Qed.

(** X9: without a [node_list] every call makes its own list [[10, 10]] at a
    place the store did not hold, so nothing is shared between calls: the
    network has the three layers [input_dim->10, 10->10, 10->output_dim], and
    a second call gets a list of its own and three layers again, the list of
    the first network staying as it was. *)
Theorem default_node_list_not_shared
    (input_dim output_dim : Z) (context : option Z)
    (op_activ int_activ : activation) (kwargs : gmap string py_value)
    (w : World) :
  truthy (kwarg kwargs "islast" (PyBool true)) = true →
  ∃ (net : DenseNet) (w' : World),
    __init__ input_dim output_dim context None op_activ int_activ kwargs w
      = (Returned net, w')
    ∧ heap w !! layers net = None
    ∧ heap w' !! layers net = Some [10; 10; output_dim]
    ∧ hidden net = [Linear input_dim 10; Linear 10 10; Linear 10 output_dim]
    ∧ ∀ (input_dim2 output_dim2 : Z) (context2 : option Z)
        (op_activ2 int_activ2 : activation)
        (kwargs2 : gmap string py_value),
        truthy (kwarg kwargs2 "islast" (PyBool true)) = true →
        ∃ (net2 : DenseNet) (w'' : World),
          __init__ input_dim2 output_dim2 context2 None op_activ2 int_activ2
            kwargs2 w' = (Returned net2, w'')
          ∧ layers net2 ≠ layers net
          ∧ hidden net2 =
              [Linear input_dim2 10; Linear 10 10; Linear 10 output_dim2]
          ∧ heap w'' !! layers net = Some [10; 10; output_dim].
Proof.
  intros Hlast. rewrite (init_default_run _ _ _ _ _ _ _ Hlast).
  eexists _, _. split; [reflexivity|]. simpl.
  split; [apply fresh_not_held|].
  split; [apply lookup_insert_eq|].
  split; [reflexivity|].
  intros input_dim2 output_dim2 context2 op_activ2 int_activ2 kwargs2 Hlast2.
  rewrite (init_default_run _ _ _ _ _ _ _ Hlast2).
  eexists _, _. split; [reflexivity|]. simpl.
  set (r := fresh (dom (heap w))).
  set (h' := <[r := [10; 10; output_dim]]> (<[r := [10; 10]]> (heap w))).
  assert (fresh (dom h') ≠ r) as Hne.
  { intros Heq.
    pose proof (fresh_not_held (mkWorld h' [])) as Hf. simpl in Hf.
    rewrite Heq in Hf. unfold h' in Hf.
    rewrite lookup_insert_eq in Hf. discriminate. }
  split; [done|]. split; [reflexivity|].
  rewrite !lookup_insert_ne by done. apply lookup_insert_eq.
Qed.

(** X10: the constructor writes to no list but the one it is given: every
    other list object of the store is the same after a call that returns. *)
Theorem construction_frame
    (input_dim output_dim : Z) (context : option Z) (node_list : option loc)
    (op_activ int_activ : activation) (kwargs : gmap string py_value)
    (w w' : World) (net : DenseNet) (r' : loc) (ns' : list Z) :
  __init__ input_dim output_dim context node_list op_activ int_activ kwargs w
    = (Returned net, w') →
  heap w !! r' = Some ns' →
  node_list ≠ Some r' →
  heap w' !! r' = Some ns'.
Proof.
  intros Hrun Hr' Hne.
  destruct (init_returned_world _ _ _ _ _ _ _ _ _ _ Hrun)
    as (ns & l0 & rest & _ & Hnl & _ & _ & Hother & _).
  rewrite Hother; [done| |by eexists].
  destruct node_list as [r|].
  - destruct Hnl as [-> _]. congruence.
  - destruct Hnl as [Hfresh _]. congruence.
Qed.

(** X11: with [islast] false the list of the caller is left as it is and
    [output_dim] takes no part in the layers: the chain ends at the last
    width of the list, which is the size of what [forward] gives. *)
Theorem islast_false_leaves_list
    (input_dim output_dim : Z) (context : option Z) (r : loc)
    (op_activ int_activ : activation) (kwargs : gmap string py_value)
    (w : World) (ds : list Z) (dlast : Z) (x : Tensor) :
  heap w !! r = Some (ds ++ [dlast]) →
  truthy (kwarg kwargs "islast" (PyBool true)) = false →
  ∃ (net : DenseNet) (w' : World) (t : Tensor),
    __init__ input_dim output_dim context (Some r) op_activ int_activ kwargs w
      = (Returned net, w')
    ∧ heap w' = heap w
    ∧ hidden net = linear_chain input_dim (ds ++ [dlast])
    ∧ forward net x None = Returned t
    ∧ (features x = Some input_dim → features t = Some dlast).
Proof.
  intros Hr Hlast.
  rewrite (init_run _ _ _ _ _ _ _ _ _ Hr).
  unfold layers_in_use. rewrite Hlast.
  destruct (ds ++ [dlast]) as [|l0 rest] eqn:E.
  { by destruct ds. }
  eexists _, _, _. split; [reflexivity|]. simpl.
  split; [reflexivity|]. split; [reflexivity|].
  split; [by apply forward_plain|].
  intros Hx.
  apply (feed_forward_features int_activ op_activ ds input_dim); [done|].
  by rewrite E.
Qed.

(** X12: with [islast] false an empty list leaves no first width: the
    constructor raises [IndexError]; the list is as before, and the warning
    of both normalizations, if due, is already issued. *)
Theorem empty_node_list_raises
    (input_dim output_dim : Z) (context : option Z) (r : loc)
    (op_activ int_activ : activation) (kwargs : gmap string py_value)
    (w : World) :
  heap w !! r = Some [] →
  truthy (kwarg kwargs "islast" (PyBool true)) = false →
  __init__ input_dim output_dim context (Some r) op_activ int_activ kwargs w
  = (Raised IndexError,
     mkWorld (heap w)
       (warnings w ++ if both_norms kwargs then [BothNorms] else [])).
Proof.
  intros Hr Hlast.
  rewrite (init_run _ _ _ _ _ _ _ _ _ Hr).
  unfold layers_in_use. by rewrite Hlast.
Qed.

(** X13: a network built without a context has no [contextual]: with two
    layers or more, [forward] with a context raises [AttributeError], while
    [forward] without one returns. *)
Theorem context_without_contextual_raises
    (input_dim output_dim : Z) (r : loc) (op_activ int_activ : activation)
    (kwargs : gmap string py_value) (w : World) (n : Z) (ns : list Z)
    (x ctx : Tensor) :
  heap w !! r = Some (n :: ns) →
  truthy (kwarg kwargs "islast" (PyBool true)) = true →
  ∃ (net : DenseNet) (w' : World),
    __init__ input_dim output_dim None (Some r) op_activ int_activ kwargs w
      = (Returned net, w')
    ∧ forward net x (Some ctx) = Raised AttributeError
    ∧ ∃ t : Tensor, forward net x None = Returned t.
Proof.
  intros Hr Hlast.
  rewrite (init_run _ _ _ _ _ _ _ _ _ Hr).
  unfold layers_in_use. rewrite Hlast. simpl.
  destruct (linear_chain n (ns ++ [output_dim])) as [|l ls] eqn:E.
  { by destruct ns. }
  eexists _, _. split; [reflexivity|].
  split; [by eapply forward_missing_contextual|].
  eexists. by apply forward_plain.
Qed.

(** X14: a network never has both normalization attributes true: when both
    options are given true the constructor sets [layernorm] to 0 and
    [batchnorm] to 1 and warns once; otherwise it records the options as
    given and warns of nothing. *)
Theorem norm_attributes_never_both
    (input_dim output_dim : Z) (context : option Z) (node_list : option loc)
    (op_activ int_activ : activation) (kwargs : gmap string py_value)
    (w w' : World) (net : DenseNet) :
  __init__ input_dim output_dim context node_list op_activ int_activ kwargs w
    = (Returned net, w') →
  truthy (layernorm net) && truthy (batchnorm net) = false
  ∧ (both_norms kwargs = true →
     layernorm net = PyInt 0 ∧ batchnorm net = PyInt 1
     ∧ warnings w' = warnings w ++ [BothNorms])
  ∧ (both_norms kwargs = false →
     layernorm net = kwarg kwargs "layernorm" (PyBool false)
     ∧ batchnorm net = kwarg kwargs "batchnorm" (PyBool false)
     ∧ warnings w' = warnings w).
Proof.
  intros Hrun.
  destruct (init_returned_world _ _ _ _ _ _ _ _ _ _ Hrun)
    as (ns & l0 & rest & _ & _ & -> & _ & _ & ->).
  simpl. unfold layernorm_in_use, batchnorm_in_use.
  destruct (both_norms kwargs) eqn:B.
  - split; [done|]. split; [done|]. intros; discriminate.
  - split; [exact B|]. split; [intros; discriminate|].
    intros _. by rewrite app_nil_r.
Qed.

(** X15: a network that the constructor returns matches the list it holds:
    the list has a first width, the layers are the chain from [input_dim]
    through the list, one layer for each entry, [contextual] maps the context
    into the first width, and with [islast] true the list ends with
    [output_dim]. *)
Theorem network_matches_its_list
    (input_dim output_dim : Z) (context : option Z) (node_list : option loc)
    (op_activ int_activ : activation) (kwargs : gmap string py_value)
    (w w' : World) (net : DenseNet) :
  __init__ input_dim output_dim context node_list op_activ int_activ kwargs w
    = (Returned net, w') →
  ∃ (l0 : Z) (rest : list Z),
    heap w' !! layers net = Some (l0 :: rest)
    ∧ hidden net = linear_chain input_dim (l0 :: rest)
    ∧ length (hidden net) = length (l0 :: rest)
    ∧ contextual net = (λ c, Linear c l0) <$> context
    ∧ (truthy (islast net) = true → last (l0 :: rest) = Some output_dim).
Proof.
  intros Hrun.
  destruct (init_returned_world _ _ _ _ _ _ _ _ _ _ Hrun)
    as (ns & l0 & rest & HL & _ & Hnet & Hat & _ & _).
  exists l0, rest. split; [done|]. rewrite Hnet. simpl.
  split; [done|]. split; [by rewrite linear_chain_length|].
  split; [done|].
  intros Hlast. rewrite <- HL. unfold layers_in_use. rewrite Hlast.
  apply last_snoc.
Qed.

(** X16: the forward pass of a network that the constructor returns is well
    shaped: on an input of [input_dim] features it returns a tensor with as
    many features as the last entry of the list the network holds, and so it
    does with a context of the size the network was built for, the sum with
    the context being of two tensors of the first width. *)
Theorem forward_well_shaped
    (input_dim output_dim : Z) (context : option Z) (node_list : option loc)
    (op_activ int_activ : activation) (kwargs : gmap string py_value)
    (w w' : World) (net : DenseNet) (x : Tensor) :
  __init__ input_dim output_dim context node_list op_activ int_activ kwargs w
    = (Returned net, w') →
  features x = Some input_dim →
  ∃ (ds : list Z) (dlast : Z) (t : Tensor),
    heap w' !! layers net = Some (ds ++ [dlast])
    ∧ forward net x None = Returned t
    ∧ features t = Some dlast
    ∧ ∀ (c : Z) (ctx : Tensor),
        context = Some c → features ctx = Some c →
        ∃ t' : Tensor,
          forward net x (Some ctx) = Returned t' ∧ features t' = Some dlast.
Proof.
  intros Hrun Hx.
  destruct (init_returned_world _ _ _ _ _ _ _ _ _ _ Hrun)
    as (ns & l0 & rest & _ & _ & Hnet & Hat & _ & _).
  destruct rest as [|l1 rest].
  - exists [], l0. eexists. split; [done|].
    rewrite Hnet. split; [by apply forward_single|].
    simpl. rewrite Hx. simpl. rewrite Z.eqb_refl.
    split; [done|].
    intros c ctx _ _. eexists. split; [by apply forward_single|].
    simpl. rewrite Hx. simpl. by rewrite Z.eqb_refl.
  - destruct (split_last l1 rest) as (ds & dlast & Heq).
    exists (l0 :: ds), dlast. eexists.
    split; [by rewrite Hat, Heq|].
    rewrite Hnet. split; [by apply forward_plain|].
    split.
    + apply (feed_forward_features int_activ op_activ (l0 :: ds) input_dim);
        [done|].
      simpl. by rewrite <- Heq.
    + intros c ctx -> Hc. eexists.
      split.
      { apply (forward_context _ (Linear input_dim l0) (Linear l0 l1)
                 (linear_chain l1 rest) (Linear c l0)); reflexivity. }
      apply (feed_forward_features int_activ op_activ ds l0).
      * simpl. rewrite Hx, Hc. simpl. rewrite !Z.eqb_refl. simpl.
        by rewrite Z.eqb_refl.
      * by rewrite <- Heq.
Qed.

(** X17: of the keyword options the constructor reads [layernorm],
    [batchnorm] and [islast] and no other: options that agree on these three
    give the same call, whatever else they hold. *)
Theorem unknown_options_ignored
    (input_dim output_dim : Z) (context : option Z) (node_list : option loc)
    (op_activ int_activ : activation) (kwargs1 kwargs2 : gmap string py_value)
    (w : World) :
  kwargs1 !! "layernorm" = kwargs2 !! "layernorm" →
  kwargs1 !! "batchnorm" = kwargs2 !! "batchnorm" →
  kwargs1 !! "islast" = kwargs2 !! "islast" →
  __init__ input_dim output_dim context node_list op_activ int_activ kwargs1
    w =
  __init__ input_dim output_dim context node_list op_activ int_activ kwargs2
    w.
Proof.
  intros H1 H2 H3. unfold __init__, kwarg. by rewrite H1, H2, H3.
Qed.

(** X19: the network keeps the list of the caller, not a copy: once a second
    network is built from the same list, the list that the first network
    holds has one entry more than the first network has layers, and is the
    list the second holds. *)
Theorem shared_list_outgrows_first_network
    (input_dim output_dim : Z) (context : option Z) (r : loc)
    (op_activ int_activ : activation) (kwargs : gmap string py_value)
    (w : World) (ns : list Z)
    (input_dim2 output_dim2 : Z) (context2 : option Z)
    (op_activ2 int_activ2 : activation) (kwargs2 : gmap string py_value) :
  heap w !! r = Some ns →
  truthy (kwarg kwargs "islast" (PyBool true)) = true →
  truthy (kwarg kwargs2 "islast" (PyBool true)) = true →
  ∃ (net : DenseNet) (w' : World) (net2 : DenseNet) (w'' : World)
    (l : list Z),
    __init__ input_dim output_dim context (Some r) op_activ int_activ kwargs w
      = (Returned net, w')
    ∧ __init__ input_dim2 output_dim2 context2 (Some r) op_activ2 int_activ2
        kwargs2 w' = (Returned net2, w'')
    ∧ layers net2 = layers net
    ∧ heap w' !! layers net = Some (ns ++ [output_dim])
    ∧ length (hidden net) = length (ns ++ [output_dim])
    ∧ heap w'' !! layers net = Some l
    ∧ length l = S (length (hidden net))
    ∧ length (hidden net2) = length l.
Proof.
  intros Hr Hlast Hlast2.
  rewrite (init_run _ _ _ _ _ _ _ _ _ Hr).
  unfold layers_in_use. rewrite Hlast.
  destruct (ns ++ [output_dim]) as [|l0 rest] eqn:E.
  { by destruct ns. }
  assert (heap (mkWorld (<[r := l0 :: rest]> (heap w))
                  (warnings w ++
                     if both_norms kwargs then [BothNorms] else []))
            !! r = Some (l0 :: rest)) as Hr2
    by (simpl; apply lookup_insert_eq).
  eexists _, _, _, _, _. split; [reflexivity|].
  rewrite (init_run _ _ _ _ _ _ _ _ _ Hr2).
  unfold layers_in_use. rewrite Hlast2. simpl.
  split; [reflexivity|]. simpl.
  split; [reflexivity|]. split; [apply lookup_insert_eq|].
  split; [by rewrite linear_chain_length|].
  split; [apply lookup_insert_eq|].
  rewrite !linear_chain_length. simpl. rewrite !length_app. simpl.
  split; lia.
Qed.

Lemma default_node_list_not_shared_witness :
  ∃ (net : DenseNet) (w' : World),
    __init__ 3 2 None None Identity relu ∅ sample_world = (Returned net, w')
    ∧ heap sample_world !! layers net = None
    ∧ heap w' !! layers net = Some [10; 10; 2]
    ∧ hidden net = [Linear 3 10; Linear 10 10; Linear 10 2]
    ∧ ∀ (input_dim2 output_dim2 : Z) (context2 : option Z)
        (op_activ2 int_activ2 : activation)
        (kwargs2 : gmap string py_value),
        truthy (kwarg kwargs2 "islast" (PyBool true)) = true →
        ∃ (net2 : DenseNet) (w'' : World),
          __init__ input_dim2 output_dim2 context2 None op_activ2 int_activ2
            kwargs2 w' = (Returned net2, w'')
          ∧ layers net2 ≠ layers net
          ∧ hidden net2 =
              [Linear input_dim2 10; Linear 10 10; Linear 10 output_dim2]
          ∧ heap w'' !! layers net = Some [10; 10; 2].
Proof.
  apply (default_node_list_not_shared 3 2 None Identity relu ∅ sample_world).
  reflexivity.
Defined.

Lemma construction_frame_witness :
  ∃ (net : DenseNet) (w' : World),
    __init__ 3 2 None (Some 1%positive) Identity relu ∅ sample_world
      = (Returned net, w')
    ∧ heap sample_world !! 2%positive = Some []
    ∧ heap w' !! 2%positive = Some [].
Proof.
  eexists _, _. split; [vm_compute; reflexivity|].
  split; [reflexivity|].
  eapply (construction_frame 3 2 None (Some 1%positive) Identity relu ∅
            sample_world _ _ 2%positive []).
  - vm_compute. reflexivity.
  - reflexivity.
  - discriminate.
Defined.

Lemma islast_false_leaves_list_witness :
  ∃ (net : DenseNet) (w' : World) (t : Tensor),
    __init__ 3 2 None (Some 1%positive) Identity relu
      {["islast" := PyBool false]} sample_world = (Returned net, w')
    ∧ heap w' = heap sample_world
    ∧ hidden net = linear_chain 3 ([7] ++ [8])
    ∧ forward net (data "x" 3) None = Returned t
    ∧ (features (data "x" 3) = Some 3 → features t = Some 8).
Proof.
  apply (islast_false_leaves_list 3 2 None 1%positive Identity relu
           {["islast" := PyBool false]} sample_world [7] 8 (data "x" 3)).
  - reflexivity.
  - reflexivity.
Defined.

Lemma empty_node_list_raises_witness :
  __init__ 3 2 (Some 4) (Some 2%positive) Identity relu
    {["islast" := PyBool false]} sample_world
  = (Raised IndexError,
     mkWorld (heap sample_world)
       (warnings sample_world ++
          if both_norms {["islast" := PyBool false]} then [BothNorms]
          else [])).
Proof.
  apply (empty_node_list_raises 3 2 (Some 4) 2%positive Identity relu
           {["islast" := PyBool false]} sample_world).
  - reflexivity.
  - reflexivity.
Defined.

Lemma context_without_contextual_raises_witness :
  ∃ (net : DenseNet) (w' : World),
    __init__ 3 2 None (Some 1%positive) Identity relu ∅ sample_world
      = (Returned net, w')
    ∧ forward net (data "x" 3) (Some (data "context" 4)) =
        Raised AttributeError
    ∧ ∃ t : Tensor, forward net (data "x" 3) None = Returned t.
Proof.
  apply (context_without_contextual_raises 3 2 1%positive Identity relu ∅
           sample_world 7 [8] (data "x" 3) (data "context" 4)).
  - reflexivity.
  - reflexivity.
Defined.

Lemma norm_attributes_never_both_witness :
  ∃ (net : DenseNet) (w' : World),
    __init__ 3 2 None None Identity relu
      (<["layernorm" := PyBool true]> {["batchnorm" := PyBool true]})
      sample_world = (Returned net, w')
    ∧ truthy (layernorm net) && truthy (batchnorm net) = false
    ∧ (both_norms
         (<["layernorm" := PyBool true]> {["batchnorm" := PyBool true]})
       = true →
       layernorm net = PyInt 0 ∧ batchnorm net = PyInt 1
       ∧ warnings w' = warnings sample_world ++ [BothNorms])
    ∧ (both_norms
         (<["layernorm" := PyBool true]> {["batchnorm" := PyBool true]})
       = false →
       layernorm net =
         kwarg (<["layernorm" := PyBool true]> {["batchnorm" := PyBool true]})
           "layernorm" (PyBool false)
       ∧ batchnorm net =
           kwarg
             (<["layernorm" := PyBool true]> {["batchnorm" := PyBool true]})
             "batchnorm" (PyBool false)
       ∧ warnings w' = warnings sample_world).
Proof.
  eexists _, _. split; [vm_compute; reflexivity|].
  eapply (norm_attributes_never_both 3 2 None None Identity relu
            (<["layernorm" := PyBool true]> {["batchnorm" := PyBool true]})
            sample_world).
  vm_compute. reflexivity.
Defined.

Lemma network_matches_its_list_witness :
  ∃ (net : DenseNet) (w' : World),
    __init__ 3 2 (Some 4) (Some 1%positive) Identity relu ∅ sample_world
      = (Returned net, w')
    ∧ ∃ (l0 : Z) (rest : list Z),
        heap w' !! layers net = Some (l0 :: rest)
        ∧ hidden net = linear_chain 3 (l0 :: rest)
        ∧ length (hidden net) = length (l0 :: rest)
        ∧ contextual net = (λ c, Linear c l0) <$> Some 4
        ∧ (truthy (islast net) = true → last (l0 :: rest) = Some 2).
Proof.
  eexists _, _. split; [vm_compute; reflexivity|].
  eapply (network_matches_its_list 3 2 (Some 4) (Some 1%positive) Identity
            relu ∅ sample_world).
  vm_compute. reflexivity.
Defined.

Lemma forward_well_shaped_witness :
  ∃ (net : DenseNet) (w' : World),
    __init__ 3 2 (Some 4) (Some 1%positive) Identity relu ∅ sample_world
      = (Returned net, w')
    ∧ features (data "x" 3) = Some 3
    ∧ ∃ (ds : list Z) (dlast : Z) (t : Tensor),
        heap w' !! layers net = Some (ds ++ [dlast])
        ∧ forward net (data "x" 3) None = Returned t
        ∧ features t = Some dlast
        ∧ ∀ (c : Z) (ctx : Tensor),
            Some 4 = Some c → features ctx = Some c →
            ∃ t' : Tensor,
              forward net (data "x" 3) (Some ctx) = Returned t'
              ∧ features t' = Some dlast.
Proof.
  eexists _, _. split; [vm_compute; reflexivity|].
  split; [reflexivity|].
  eapply (forward_well_shaped 3 2 (Some 4) (Some 1%positive) Identity relu ∅
            sample_world).
  - vm_compute. reflexivity.
  - reflexivity.
Defined.

Lemma unknown_options_ignored_witness :
  __init__ 3 2 (Some 4) (Some 1%positive) Identity relu ∅ sample_world =
  __init__ 3 2 (Some 4) (Some 1%positive) Identity relu
    {["dropout" := PyInt 1]} sample_world.
Proof.
  apply (unknown_options_ignored 3 2 (Some 4) (Some 1%positive) Identity relu
           ∅ {["dropout" := PyInt 1]} sample_world).
  - reflexivity.
  - reflexivity.
  - reflexivity.
Defined.

Lemma context_added_first_layer_witness :
  ∃ (net : DenseNet) (w' : World) (l : Layer) (ls : list Layer),
    __init__ 3 2 (Some 4) (Some 1%positive) Identity relu ∅ sample_world
      = (Returned net, w')
    ∧ contextual net = Some (Linear 4 7)
    ∧ linear_chain 7 ([8] ++ [2]) = l :: ls
    ∧ forward net (data "x" 3) (Some (data "context" 4)) =
      Returned
        (feed_forward relu Identity l ls
           (apply_activ relu
              (iadd (apply_linear (Linear 3 7) (data "x" 3))
                 (apply_linear (Linear 4 7) (data "context" 4))))).
Proof.
  apply (context_added_first_layer 3 2 4 1%positive Identity relu ∅
           sample_world 7 [8] (data "x" 3) (data "context" 4)).
  - reflexivity.
  - reflexivity.
Defined.

Lemma shared_list_outgrows_first_network_witness :
  ∃ (net : DenseNet) (w' : World) (net2 : DenseNet) (w'' : World)
    (l : list Z),
    __init__ 3 2 None (Some 1%positive) Identity relu ∅ sample_world
      = (Returned net, w')
    ∧ __init__ 5 4 None (Some 1%positive) Identity relu ∅ w'
      = (Returned net2, w'')
    ∧ layers net2 = layers net
    ∧ heap w' !! layers net = Some ([7; 8] ++ [2])
    ∧ length (hidden net) = length ([7; 8] ++ [2])
    ∧ heap w'' !! layers net = Some l
    ∧ length l = S (length (hidden net))
    ∧ length (hidden net2) = length l.
Proof.
  apply (shared_list_outgrows_first_network 3 2 None 1%positive Identity relu
           ∅ sample_world [7; 8] 5 4 None Identity relu ∅).
  - reflexivity.
  - reflexivity.
  - reflexivity.
Defined.

End dense_more.

(** * The calls as Python runs them, with nflows *)

Module calls_results.
Import flows nflows flows_results flows_more dense dense_results dense_more.

Lemma mapM_step {A B : Type} (f : A → M B) (x : A) (xs : list A)
    (w : World) :
  mapM f (x :: xs) w =
  match f x w with
  | (Returned y, w1) =>
      match mapM f xs w1 with
      | (Returned k, w2) => (Returned (y :: k), w2)
      | (Raised e, w2) => (Raised e, w2)
      end
  | (Raised e, w1) => (Raised e, w1)
  end.
Proof.
  change (mapM f (x :: xs)) with (y ← f x; k ← mapM f xs; mret (y :: k)).
  unfold mbind, M_bind, mret, M_ret.
  destruct (f x w) as [[y|e] w1]; [|done].
  by destruct (mapM f xs w1) as [[k|e] w2].
Qed.

Lemma mapM_snoc {A B : Type} (f : A → M B) (xs : list A) (x : A) :
  ∀ w : World,
    mapM f (xs ++ [x]) w =
    match mapM f xs w with
    | (Returned k, w1) =>
        match f x w1 with
        | (Returned y, w2) => (Returned (k ++ [y]), w2)
        | (Raised e, w2) => (Raised e, w2)
        end
    | (Raised e, w1) => (Raised e, w1)
    end.
Proof.
  induction xs as [|x0 xs IH]; intros w.
  - simpl app. rewrite mapM_step.
    change (mapM f [] w) with (Returned (@nil B), w). cbv beta iota.
    destruct (f x w) as [[y|e] w1]; [|done].
    by change (mapM f [] w1) with (Returned (@nil B), w1).
  - simpl app. rewrite !mapM_step.
    destruct (f x0 w) as [[y0|e] w1]; [|done].
    rewrite IH.
    destruct (mapM f xs w1) as [[k|e] w2]; [|done].
    by destruct (f x w2) as [[y|e] w3].
Qed.

Section Calls.
Context {Net : Type}.

Abbreviation coupling mask fn num_bins tails tail_bound :=
  (@PiecewiseRationalQuadraticCouplingTransform (Z → Z → M Net)
     mask fn num_bins tails tail_bound false).

(** With a factory, the call is nflows on the constructor calls of the
    function, after the warnings of the function. *)
Lemma call_run
    (input_dim : Z) (fn : Z → Z → M Net) (num_stacks : number)
    (tails : option string) (tail_bounds : number) (num_bins : Z)
    (mask : option (list Z)) (w : World) :
  coupling_spline_transformer_call input_dim (Some fn) num_stacks tails
    tail_bounds num_bins mask w =
  construct
    (CompositeTransform
       (replicate (Z.to_nat (stacks_in_use num_stacks))
          (coupling (mask_in_use input_dim mask) fn num_bins
             (tails_in_use tails) tail_bounds)
        ++ [ReversePermutation input_dim]))
    (mkWorld (heap w)
       (warnings w ++ warnings_issued input_dim mask num_stacks)).
Proof.
  unfold coupling_spline_transformer_call.
  unfold mbind at 1. unfold M_bind.
  by rewrite coupling_spline_transformer_run.
Qed.

Lemma call_exit
    (input_dim : Z) (num_stacks : number) (tails : option string)
    (tail_bounds : number) (num_bins : Z) (mask : option (list Z))
    (w : World) :
  coupling_spline_transformer_call (Net := Net) input_dim None num_stacks
    tails tail_bounds num_bins mask w =
  (Raised SystemExit, mkWorld (heap w) (warnings w ++ [NoNetCreateFn])).
Proof. reflexivity. Qed.

(** A composite of a stack and a reverse permutation: the stack first, then
    the permutation, which wants a positive number of features. *)
Lemma construct_stack_then_reverse
    (stack : list (Transform (Z → Z → M Net))) (d : Z) (w : World) :
  construct (CompositeTransform (stack ++ [ReversePermutation d])) w =
  match mapM construct stack w with
  | (Returned built, w1) =>
      if 0 <? d
      then (Returned (BuiltComposite (built ++ [BuiltReverse d])), w1)
      else (Raised ValueError, w1)
  | (Raised e, w1) => (Raised e, w1)
  end.
Proof.
  change (construct (CompositeTransform (stack ++ [ReversePermutation d])) w)
    with ((built ← mapM construct (stack ++ [ReversePermutation d]);
           mret (BuiltComposite built)) w).
  unfold mbind at 1. unfold M_bind. rewrite mapM_snoc.
  destruct (mapM construct stack w) as [[built|e] w1]; [|done].
  simpl. by destruct (0 <? d).
Qed.

(** One coupling transform on a mask that is not empty: the factory, once. *)
Lemma construct_coupling
    (v : Z) (mask : list Z) (fn : Z → Z → M Net) (num_bins : Z)
    (tails : string) (tail_bound : number) (w : World) :
  construct (coupling (v :: mask) fn num_bins tails tail_bound) w =
  match
    fn (num_identity_features (v :: mask))
       (num_transform_features (v :: mask)
        * transform_dim_multiplier tails num_bins) w
  with
  | (Returned net, w1) =>
      (Returned (BuiltCoupling (v :: mask) net num_bins tails tail_bound), w1)
  | (Raised e, w1) => (Raised e, w1)
  end.
Proof. reflexivity. Qed.

Lemma mask_in_use_nonpositive (input_dim : Z) (mask : option (list Z)) :
  input_dim ≤ 0 → mask_in_use input_dim mask = [].
Proof.
  intros H. unfold mask_in_use.
  destruct mask as [m|]; [|by apply make_mask_nonpositive].
  destruct (Z.eqb_spec (Z.of_nat (length m)) input_dim) as [Heq|_];
    [|by apply make_mask_nonpositive].
  apply nil_length_inv. lia.
Qed.

Lemma mask_in_use_positive (input_dim : Z) (mask : option (list Z)) :
  1 ≤ input_dim → ∃ v m, mask_in_use input_dim mask = v :: m.
Proof.
  intros H.
  assert (Z.of_nat (length (mask_in_use input_dim mask)) = input_dim) as Hl.
  { unfold mask_in_use. destruct mask as [m|].
    - destruct (Z.eqb_spec (Z.of_nat (length m)) input_dim) as [Heq|_];
        [done|apply make_mask_length; lia].
    - apply make_mask_length; lia. }
  destruct (mask_in_use input_dim mask) as [|v m]; [simpl in Hl; lia|].
  by exists v, m.
Qed.

(** A stack on the empty mask is refused at its first transform, before the
    factory is run. *)
Lemma stack_refused (n : nat) (fn : Z → Z → M Net) (num_bins : Z)
    (tails : string) (tail_bound : number) (w : World) :
  mapM construct (replicate (S n) (coupling [] fn num_bins tails tail_bound))
    w = (Raised ValueError, w).
Proof. simpl replicate. by rewrite mapM_step. Qed.

(** With a factory that returns, a stack on a mask that is not empty is
    built, each transform on that mask. *)
Lemma stack_built (v : Z) (mask : list Z) (fn : Z → Z → M Net)
    (num_bins : Z) (tails : string) (tail_bound : number) :
  (∀ a b u, ∃ net u', fn a b u = (Returned net, u')) →
  ∀ (n : nat) (w : World),
    ∃ (built : list (Built Net)) (w' : World),
      mapM construct
        (replicate n (coupling (v :: mask) fn num_bins tails tail_bound)) w
      = (Returned built, w')
      ∧ length built = n
      ∧ Forall
          (λ b, ∃ net,
             b = BuiltCoupling (v :: mask) net num_bins tails tail_bound)
          built.
Proof.
  intros Hfn. induction n as [|n IH]; intros w.
  - exists [], w. by split.
  - simpl replicate. rewrite mapM_step, construct_coupling.
    destruct (Hfn (num_identity_features (v :: mask))
                (num_transform_features (v :: mask)
                 * transform_dim_multiplier tails num_bins) w)
      as (net & u' & ->).
    destruct (IH u') as (built & w' & -> & Hlen & Hall).
    eexists _, _. split; [reflexivity|].
    split; [simpl; by rewrite Hlen|].
    constructor; [by exists net|done].
Qed.

(** A stack leaves the store as the factory leaves it. *)
Lemma stack_heap (mask : list Z) (fn : Z → Z → M Net) (num_bins : Z)
    (tails : string) (tail_bound : number) :
  (∀ a b u, heap (fn a b u).2 = heap u) →
  ∀ (n : nat) (w : World),
    heap (mapM construct
            (replicate n (coupling mask fn num_bins tails tail_bound)) w).2
    = heap w.
Proof.
  intros Hfn. induction n as [|n IH]; intros w; [done|].
  destruct mask as [|v mask]; [by rewrite stack_refused|].
  simpl replicate. rewrite mapM_step, construct_coupling.
  pose proof (Hfn (num_identity_features (v :: mask))
                (num_transform_features (v :: mask)
                 * transform_dim_multiplier tails num_bins) w) as Hw.
  destruct (fn _ _ w) as [[net|e] u']; simpl in Hw; [|done].
  pose proof (IH u') as Hu.
  destruct (mapM construct _ u') as [[built|e] w']; simpl in *; congruence.
Qed.

(** What a stack gives, seen through a view of the networks, is the same from
    any two worlds when what the factory gives is. *)
Lemma stack_view {V : Type} (view : Net → V) (mask : list Z)
    (fn : Z → Z → M Net) (num_bins : Z) (tails : string)
    (tail_bound : number) :
  (∀ a b u1 u2, seen view (fn a b u1).1 = seen view (fn a b u2).1) →
  ∀ (n : nat) (w1 w2 : World),
    seen (fmap (through view))
      (mapM construct
         (replicate n (coupling mask fn num_bins tails tail_bound)) w1).1
    = seen (fmap (through view))
        (mapM construct
           (replicate n (coupling mask fn num_bins tails tail_bound)) w2).1.
Proof.
  intros Hfn. induction n as [|n IH]; intros w1 w2; [done|].
  destruct mask as [|v mask]; [by rewrite !stack_refused|].
  simpl replicate. rewrite !mapM_step, !construct_coupling.
  pose proof (Hfn (num_identity_features (v :: mask))
                (num_transform_features (v :: mask)
                 * transform_dim_multiplier tails num_bins) w1 w2) as Hv.
  destruct (fn _ _ w1) as [[net1|e1] u1], (fn _ _ w2) as [[net2|e2] u2];
    simpl in Hv; try discriminate; [|by injection Hv as ->].
  injection Hv as Hv.
  pose proof (IH u1 u2) as Hrest.
  destruct (mapM construct _ u1) as [[built1|e1] w1'],
           (mapM construct _ u2) as [[built2|e2] w2'];
    simpl in Hrest; try discriminate; [|by injection Hrest as ->].
  injection Hrest as Hrest. simpl. f_equal.
  rewrite Hv. f_equal. exact Hrest.
Qed.

Lemma composite_view {V : Type} (view : Net → V)
    (stack : list (Transform (Z → Z → M Net))) (d : Z) (w1 w2 : World) :
  seen (fmap (through view)) (mapM construct stack w1).1
  = seen (fmap (through view)) (mapM construct stack w2).1 →
  seen (through view)
    (construct (CompositeTransform (stack ++ [ReversePermutation d])) w1).1
  = seen (through view)
      (construct (CompositeTransform (stack ++ [ReversePermutation d])) w2).1.
Proof.
  intros H. rewrite !construct_stack_then_reverse.
  destruct (mapM construct stack w1) as [[built1|e1] w1'],
           (mapM construct stack w2) as [[built2|e2] w2'];
    simpl in H; try discriminate; [|by injection H as ->].
  injection H as H. destruct (0 <? d); [|done].
  simpl. by rewrite !fmap_app, H.
Qed.

(** A stack raises what nflows raises, [ValueError], or what the factory
    raises. *)
Lemma stack_raises (mask : list Z) (fn : Z → Z → M Net) (num_bins : Z)
    (tails : string) (tail_bound : number) (e : exn) :
  ∀ (n : nat) (w : World),
    (mapM construct
       (replicate n (coupling mask fn num_bins tails tail_bound)) w).1
    = Raised e →
    e = ValueError ∨ ∃ a b u, (fn a b u).1 = Raised e.
Proof.
  induction n as [|n IH]; intros w; [discriminate|].
  destruct mask as [|v mask].
  { rewrite stack_refused. intros [= <-]. by left. }
  simpl replicate. rewrite mapM_step, construct_coupling.
  destruct (fn _ _ w) as [[net|e'] u'] eqn:E.
  - pose proof (IH u') as Hrest.
    destruct (mapM construct _ u') as [[built|e'] w']; [discriminate|].
    simpl in *. exact Hrest.
  - simpl. intros [= ->]. right. eexists _, _, w. by rewrite E.
Qed.

(** The flow call is the transformer call without a mask, paired with the
    standard normal when it returns. *)
Lemma flow_call_run
    (input_dim : Z) (net_create_fn : option (Z → Z → M Net))
    (num_stacks : number) (tails : option string) (tail_bounds : number)
    (num_bins : Z) (base_density : py_value) (w : World) :
  coupling_flow_call input_dim net_create_fn num_stacks tails tail_bounds
    num_bins base_density w =
  match
    coupling_spline_transformer_call input_dim net_create_fn num_stacks tails
      tail_bounds num_bins None w
  with
  | (Returned built, w') =>
      (Returned (BuiltFlowOf built (StandardNormal [input_dim])), w')
  | (Raised e, w') => (Raised e, w')
  end.
Proof.
  unfold coupling_flow_call, coupling_spline_transformer_call, coupling_flow.
  cbv beta iota zeta delta [mbind M_bind mret M_ret].
  destruct (coupling_spline_transformer input_dim net_create_fn num_stacks
              tails tail_bounds num_bins None w) as [[t|e] w1]; [|done].
  cbv beta iota zeta delta [construct_flow mbind M_bind mret M_ret].
  by destruct (construct t w1) as [[built|e] w2].
Qed.

(** With a factory, the call raises [ValueError] or what the factory
    raises, and nothing else. *)
Lemma call_raises
    (input_dim : Z) (fn : Z → Z → M Net) (num_stacks : number)
    (tails : option string) (tail_bounds : number) (num_bins : Z)
    (mask : option (list Z)) (w : World) (e : exn) :
  (coupling_spline_transformer_call input_dim (Some fn) num_stacks tails
     tail_bounds num_bins mask w).1 = Raised e →
  e = ValueError ∨ ∃ a b u, (fn a b u).1 = Raised e.
Proof.
  rewrite call_run, construct_stack_then_reverse.
  match goal with |- context [mapM construct ?l ?u] =>
    pose proof (stack_raises _ _ _ _ _ e _ u : (mapM construct l u).1 = _ → _)
      as Hs;
    destruct (mapM construct l u) as [[built|e'] w']
  end.
  - destruct (0 <? input_dim); [discriminate|]. intros [= <-]. by left.
  - simpl in *. intros [= ->]. by apply Hs.
Qed.

(** With a factory that returns and a positive [input_dim] the call
    returns the composite of the stack, each transform on the mask in use,
    and of the reverse permutation. *)
Lemma call_returns
    (input_dim : Z) (fn : Z → Z → M Net) (num_stacks : number)
    (tails : option string) (tail_bounds : number) (num_bins : Z)
    (mask : option (list Z)) (w : World) :
  1 ≤ input_dim →
  (∀ a b u, ∃ net u', fn a b u = (Returned net, u')) →
  ∃ (stack : list (Built Net)) (w' : World),
    coupling_spline_transformer_call input_dim (Some fn) num_stacks tails
      tail_bounds num_bins mask w =
      (Returned (BuiltComposite (stack ++ [BuiltReverse input_dim])), w')
    ∧ length stack = Z.to_nat (stacks_in_use num_stacks)
    ∧ Forall
        (λ b, ∃ net,
           b = BuiltCoupling (mask_in_use input_dim mask) net num_bins
                 (tails_in_use tails) tail_bounds)
        stack.
Proof.
  intros Hdim Hfn. rewrite call_run, construct_stack_then_reverse.
  destruct (mask_in_use_positive input_dim mask Hdim) as (v & m & ->).
  match goal with |- context [mapM construct (replicate ?n _) ?u] =>
    destruct (stack_built v m fn num_bins (tails_in_use tails) tail_bounds
                Hfn n u) as (built & w' & -> & Hlen & Hall)
  end.
  rewrite (proj2 (Z.ltb_lt 0 input_dim)) by lia.
  by exists built, w'.
Qed.

(** For an [input_dim] that is not positive, nflows refuses, whatever the
    mask and before the factory is run. *)
Lemma call_refused
    (input_dim : Z) (fn : Z → Z → M Net) (num_stacks : number)
    (tails : option string) (tail_bounds : number) (num_bins : Z)
    (mask : option (list Z)) (w : World) :
  input_dim ≤ 0 →
  coupling_spline_transformer_call input_dim (Some fn) num_stacks tails
    tail_bounds num_bins mask w =
  (Raised ValueError,
   mkWorld (heap w)
     (warnings w ++ warnings_issued input_dim mask num_stacks)).
Proof.
  intros Hdim. rewrite call_run, construct_stack_then_reverse.
  rewrite (mask_in_use_nonpositive input_dim mask Hdim).
  destruct (Z.to_nat (stacks_in_use num_stacks)) as [|n].
  - simpl. by rewrite (proj2 (Z.ltb_ge 0 input_dim)) by lia.
  - by rewrite stack_refused.
Qed.

(** The call leaves the store as the factory leaves it. *)
Lemma call_heap
    (input_dim : Z) (net_create_fn : option (Z → Z → M Net))
    (num_stacks : number) (tails : option string) (tail_bounds : number)
    (num_bins : Z) (mask : option (list Z)) (w : World) :
  (∀ fn, net_create_fn = Some fn → ∀ a b u, heap (fn a b u).2 = heap u) →
  heap (coupling_spline_transformer_call input_dim net_create_fn num_stacks
          tails tail_bounds num_bins mask w).2 = heap w.
Proof.
  intros Hfn. destruct net_create_fn as [fn|]; [|done].
  rewrite call_run, construct_stack_then_reverse.
  match goal with |- context [mapM construct (replicate ?n (coupling ?m _ _ _ _)) ?u] =>
    pose proof (stack_heap m fn num_bins (tails_in_use tails) tail_bounds
                  (Hfn fn eq_refl) n u) as Hs;
    destruct (mapM construct (replicate n _) u) as [[built|e] w']
  end; simpl in Hs.
  - by destruct (0 <? input_dim).
  - done.
Qed.

(** What the call gives, seen through a view of the networks, is the same
    from any two worlds when what the factory gives is. *)
Lemma call_view {V : Type} (view : Net → V)
    (input_dim : Z) (net_create_fn : option (Z → Z → M Net))
    (num_stacks : number) (tails : option string) (tail_bounds : number)
    (num_bins : Z) (mask : option (list Z)) (w1 w2 : World) :
  (∀ fn, net_create_fn = Some fn →
     ∀ a b u1 u2, seen view (fn a b u1).1 = seen view (fn a b u2).1) →
  seen (through view)
    (coupling_spline_transformer_call input_dim net_create_fn num_stacks
       tails tail_bounds num_bins mask w1).1
  = seen (through view)
      (coupling_spline_transformer_call input_dim net_create_fn num_stacks
         tails tail_bounds num_bins mask w2).1.
Proof.
  intros Hfn. destruct net_create_fn as [fn|]; [|done].
  rewrite !call_run. apply composite_view, stack_view, (Hfn fn eq_refl).
Qed.

(** C8, as the code has it: without a network factory the call raises
    [SystemExit], after the warning of it and before anything is built; with
    a factory that does not raise it, the call does not raise it; a mask that
    is absent, [None] or of the wrong length raises nothing of itself: after
    the warning of it, [make_mask(input_dim)] takes its place in every
    constructor call; and the call returns the composite when [input_dim] is
    positive and the factory returns. *)
Theorem transformer_exit_mask_and_return
    (input_dim : Z) (net_create_fn : option (Z → Z → M Net))
    (num_stacks : number) (tails : option string) (tail_bounds : number)
    (num_bins : Z) (mask : option (list Z)) (w : World) :
  (net_create_fn = None →
   coupling_spline_transformer_call input_dim net_create_fn num_stacks tails
     tail_bounds num_bins mask w =
   (Raised SystemExit, mkWorld (heap w) (warnings w ++ [NoNetCreateFn])))
  ∧ (∀ fn, net_create_fn = Some fn →
     (∀ a b u, (fn a b u).1 ≠ Raised SystemExit) →
     (coupling_spline_transformer_call input_dim net_create_fn num_stacks
        tails tail_bounds num_bins mask w).1 ≠ Raised SystemExit)
  ∧ (∀ fn, net_create_fn = Some fn →
     mask = None ∨ (∃ m, mask = Some m ∧ Z.of_nat (length m) ≠ input_dim) →
     coupling_spline_transformer_call input_dim net_create_fn num_stacks
       tails tail_bounds num_bins mask w =
     construct
       (CompositeTransform
          (replicate (Z.to_nat (stacks_in_use num_stacks))
             (coupling (make_mask input_dim) fn num_bins (tails_in_use tails)
                tail_bounds)
           ++ [ReversePermutation input_dim]))
       (mkWorld (heap w)
          (warnings w ++
             MaskAdjusted input_dim mask ::
               match num_stacks with
               | Int _ => []
               | Float _ => [NumStacksNotInt]
               end)))
  ∧ (∀ fn, net_create_fn = Some fn →
     1 ≤ input_dim →
     (∀ a b u, ∃ net u', fn a b u = (Returned net, u')) →
     ∃ (stack : list (Built Net)) (w' : World),
       coupling_spline_transformer_call input_dim net_create_fn num_stacks
         tails tail_bounds num_bins mask w =
         (Returned (BuiltComposite (stack ++ [BuiltReverse input_dim])), w')
       ∧ length stack = Z.to_nat (stacks_in_use num_stacks)
       ∧ Forall
           (λ b, ∃ net,
              b = BuiltCoupling (mask_in_use input_dim mask) net num_bins
                    (tails_in_use tails) tail_bounds)
           stack).
Proof.
  split; [intros ->; apply call_exit|].
  split.
  { intros fn -> Hfn Hexit.
    destruct (call_raises _ _ _ _ _ _ _ _ _ Hexit) as [|(a & b & u & Hf)];
      [discriminate|].
    by apply (Hfn a b u). }
  split.
  { intros fn -> Hmask. rewrite call_run.
    by destruct (mask_in_use_rejected input_dim mask num_stacks Hmask)
      as [-> ->]. }
  intros fn -> Hdim Hfn. by apply call_returns.
Qed.

(** X2: for an [input_dim] that is zero or negative the call never returns:
    whatever the mask and the number of stacks, nflows refuses with
    [ValueError], after the warnings of the function, before the factory is
    run and with the store as it was; and so for [coupling_flow]. *)
Theorem nonpositive_dim_refused
    (input_dim : Z) (fn : Z → Z → M Net) (num_stacks : number)
    (tails : option string) (tail_bounds : number) (num_bins : Z)
    (mask : option (list Z)) (base_density : py_value) (w : World) :
  input_dim ≤ 0 →
  coupling_spline_transformer_call input_dim (Some fn) num_stacks tails
    tail_bounds num_bins mask w =
  (Raised ValueError,
   mkWorld (heap w)
     (warnings w ++ warnings_issued input_dim mask num_stacks))
  ∧ coupling_flow_call input_dim (Some fn) num_stacks tails tail_bounds
      num_bins base_density w =
    (Raised ValueError,
     mkWorld (heap w)
       (warnings w ++ warnings_issued input_dim None num_stacks)).
Proof.
  intros Hdim. split; [by apply call_refused|].
  rewrite flow_call_run. by rewrite call_refused.
Qed.


(** X7: the two functions write to no list object of their own: when the
    factory leaves the store of list objects as it is, so does the call,
    whether it returns or raises. *)
Theorem store_left_as_the_factory_leaves_it
    (input_dim : Z) (net_create_fn : option (Z → Z → M Net))
    (num_stacks : number) (tails : option string) (tail_bounds : number)
    (num_bins : Z) (mask : option (list Z)) (base_density : py_value)
    (w : World) :
  (∀ fn, net_create_fn = Some fn → ∀ a b u, heap (fn a b u).2 = heap u) →
  heap (coupling_spline_transformer_call input_dim net_create_fn num_stacks
          tails tail_bounds num_bins mask w).2 = heap w
  ∧ heap (coupling_flow_call input_dim net_create_fn num_stacks tails
            tail_bounds num_bins base_density w).2 = heap w.
Proof.
  intros Hfn. split; [by apply call_heap|].
  rewrite flow_call_run.
  pose proof (call_heap input_dim net_create_fn num_stacks tails tail_bounds
                num_bins None w Hfn) as H.
  by destruct (coupling_spline_transformer_call _ _ _ _ _ _ _ w)
    as [[built|e] w'].
Qed.

End Calls.

(** *** With the [DenseNet] of the repository as the network *)

Lemma islast_by_default : truthy (kwarg ∅ "islast" (PyBool true)) = true.
Proof. reflexivity. Qed.

Lemma dense_net_factory_returns (a b : Z) (u : World) :
  ∃ net u', dense_net_factory a b u = (Returned net, u').
Proof.
  unfold dense_net_factory.
  rewrite (init_default_run a b None Identity relu ∅ u islast_by_default).
  by eexists _, _.
Qed.

Lemma dense_net_factory_layers (a b : Z) (u1 u2 : World) :
  seen hidden (dense_net_factory a b u1).1
  = seen hidden (dense_net_factory a b u2).1.
Proof.
  unfold dense_net_factory.
  by rewrite !(init_default_run a b None Identity relu ∅ _ islast_by_default).
Qed.



(** C8 as it stands fails: with a network factory and a mask of the wrong
    length, for [input_dim = -3], the call does not return a composite but
    raises [ValueError]. *)
Lemma transformer_refused_with_factory :
  coupling_spline_transformer_call (-3) (Some dense_net_factory) (Int 2) None
    (Float 1) 8 (Some [1; 0; 0]) sample_world =
  (Raised ValueError,
   mkWorld (heap sample_world) [MaskAdjusted (-3) (Some [1; 0; 0])])
  ∧ ¬ (∃ (built : Built DenseNet) (w' : World),
         coupling_spline_transformer_call (-3) (Some dense_net_factory)
           (Int 2) None (Float 1) 8 (Some [1; 0; 0]) sample_world =
         (Returned built, w')).
Proof.
  assert (coupling_spline_transformer_call (-3) (Some dense_net_factory)
            (Int 2) None (Float 1) 8 (Some [1; 0; 0]) sample_world =
          (Raised ValueError,
           mkWorld (heap sample_world) [MaskAdjusted (-3) (Some [1; 0; 0])]))
    as H by (vm_compute; reflexivity).
  split; [exact H|].
  intros (built & w' & Hret). rewrite H in Hret. discriminate.
Qed.


Lemma transformer_exit_mask_and_return_witness :
  coupling_spline_transformer_call (Net := DenseNet) 3 None (Int 2) None
    (Float 1) 8 None sample_world =
  (Raised SystemExit,
   mkWorld (heap sample_world) (warnings sample_world ++ [NoNetCreateFn]))
  ∧ ∃ (stack : list (Built DenseNet)) (w' : World),
      coupling_spline_transformer_call 3 (Some dense_net_factory) (Int 2)
        None (Float 1) 8 (Some [1; 0]) sample_world =
        (Returned (BuiltComposite (stack ++ [BuiltReverse 3])), w')
      ∧ length stack = Z.to_nat (stacks_in_use (Int 2))
      ∧ Forall
          (λ b, ∃ net,
             b = BuiltCoupling (mask_in_use 3 (Some [1; 0])) net 8
                   (tails_in_use None) (Float 1))
          stack.
Proof.
  split.
  - apply (proj1 (transformer_exit_mask_and_return (Net := DenseNet) 3 None
                    (Int 2) None (Float 1) 8 None sample_world)).
    reflexivity.
  - apply (proj2 (proj2 (proj2 (transformer_exit_mask_and_return 3
             (Some dense_net_factory) (Int 2) None (Float 1) 8 (Some [1; 0])
             sample_world))) dense_net_factory).
    + reflexivity.
    + lia.
    + apply dense_net_factory_returns.
Defined.

Lemma nonpositive_dim_refused_witness :
  -3 ≤ 0
  ∧ coupling_spline_transformer_call (-3) (Some dense_net_factory) (Int 2)
      None (Float 1) 8 (Some [1; 0; 0]) sample_world =
    (Raised ValueError,
     mkWorld (heap sample_world)
       (warnings sample_world ++
          warnings_issued (-3) (Some [1; 0; 0]) (Int 2)))
  ∧ coupling_flow_call (-3) (Some dense_net_factory) (Int 2) None (Float 1) 8
      (PyStr "Gaussian") sample_world =
    (Raised ValueError,
     mkWorld (heap sample_world)
       (warnings sample_world ++ warnings_issued (-3) None (Int 2))).
Proof.
  split; [lia|].
  apply (nonpositive_dim_refused (-3) dense_net_factory (Int 2) None (Float 1)
           8 (Some [1; 0; 0]) (PyStr "Gaussian") sample_world).
  lia.
Defined.


Lemma store_left_as_the_factory_leaves_it_witness :
  heap (coupling_spline_transformer_call 3
          (Some (λ i o : Z, mret (Linear i o))) (Int 2) None (Float 1) 8 None
          sample_world).2 = heap sample_world
  ∧ heap (coupling_flow_call 3 (Some (λ i o : Z, mret (Linear i o))) (Int 2)
            None (Float 1) 8 (PyStr "Gaussian") sample_world).2
    = heap sample_world.
Proof.
  apply (store_left_as_the_factory_leaves_it 3
           (Some (λ i o : Z, mret (Linear i o))) (Int 2) None (Float 1) 8 None
           (PyStr "Gaussian") sample_world).
  intros fn [= <-] a b u. reflexivity.
Defined.


End calls_results.

(** ** The two modules as factories *)

Module factories_results.
Import flows nflows dense flows_results dense_results calls_results.

Lemma init_structure
    (input_dim output_dim : Z) (context : option Z)
    (node_list1 node_list2 : option loc) (op_activ int_activ : activation)
    (kwargs : gmap string py_value) (w1 w2 : World) :
  node_list_value w1 node_list1 = node_list_value w2 node_list2 →
  constructed
    (__init__ input_dim output_dim context node_list1 op_activ int_activ
       kwargs w1) =
  constructed
    (__init__ input_dim output_dim context node_list2 op_activ int_activ
       kwargs w2).
Proof.
  assert (∀ (w : World) (r : loc),
            heap w !! r = None →
            constructed
              (__init__ input_dim output_dim context (Some r) op_activ
                 int_activ kwargs w) = Raised DanglingReference) as Hnone.
  { intros w r Hr.
    pose proof (init_dangling input_dim output_dim context r op_activ
                  int_activ kwargs w Hr) as Hd.
    destruct (__init__ _ _ _ _ _ _ _ w) as [[net|e] w']; simpl in Hd;
      [discriminate|].
    simpl. by injection Hd as ->. }
  intros Heq.
  destruct node_list1 as [r1|], node_list2 as [r2|]; simpl in Heq.
  - destruct (heap w1 !! r1) as [ns1|] eqn:H1;
      destruct (heap w2 !! r2) as [ns2|] eqn:H2; simpl in Heq;
      try discriminate.
    + injection Heq as ->.
      by rewrite (init_constructed _ _ _ _ _ _ _ _ _ H1),
                 (init_constructed _ _ _ _ _ _ _ _ _ H2).
    + by rewrite (Hnone _ _ H1), (Hnone _ _ H2).
  - destruct (heap w1 !! r1); discriminate.
  - destruct (heap w2 !! r2); discriminate.
  - rewrite !init_default.
    rewrite (init_constructed _ _ _ _ _ _ _ _ [10; 10]);
      [|simpl; apply lookup_insert_eq].
    rewrite (init_constructed _ _ _ _ _ _ _ _ [10; 10]);
      [|simpl; apply lookup_insert_eq].
    reflexivity.
Qed.

(** C9 as it stands fails: results are not independent of the calls before.
    A second network built with the same arguments, the same list object
    among them, has another structure than the first; and with a factory over
    one list of the caller, the same call of [coupling_spline_transformer]
    made twice gives networks of other layers the second time. *)
Lemma second_call_differs :
  (∃ (net1 : DenseNet) (w1 : World),
     __init__ 3 2 None (Some 1%positive) Identity relu ∅ sample_world
       = (Returned net1, w1)
     ∧ constructed
         (__init__ 3 2 None (Some 1%positive) Identity relu ∅ sample_world)
       ≠ constructed
           (__init__ 3 2 None (Some 1%positive) Identity relu ∅ w1))
  ∧ (∃ (built1 : Built DenseNet) (w1 : World),
       coupling_spline_transformer_call 4
         (Some (shared_list_factory 1%positive)) (Int 2) None (Float 1) 8
         None sample_world = (Returned built1, w1)
       ∧ seen (through hidden)
           (coupling_spline_transformer_call 4
              (Some (shared_list_factory 1%positive)) (Int 2) None (Float 1)
              8 None sample_world).1
         ≠ seen (through hidden)
             (coupling_spline_transformer_call 4
                (Some (shared_list_factory 1%positive)) (Int 2) None
                (Float 1) 8 None w1).1).
Proof.
  split.
  - eexists _, _. split; [vm_compute; reflexivity|].
    vm_compute. discriminate.
  - eexists _, _. split; [vm_compute; reflexivity|].
    vm_compute. discriminate.
Qed.

(** C9, as the code has it: the three factories keep no state of their own.
    Whatever the worlds two calls start in (the store and the warnings that
    earlier calls left), they give results of equal structure, or raise the
    same, when the arguments are equal in value: a list argument by the
    content it has at the time of the call, and the network factory by giving
    networks that look the same, through the view taken of them, from every
    world. *)
Theorem factories_equal_on_equal_values {Net V : Type} (view : Net → V)
    (input_dim : Z) (net_create_fn : option (Z → Z → M Net))
    (num_stacks : number) (tails : option string) (tail_bounds : number)
    (num_bins : Z) (mask : option (list Z)) (base_density : py_value)
    (output_dim : Z) (context : option Z)
    (node_list1 node_list2 : option loc) (op_activ int_activ : activation)
    (kwargs : gmap string py_value) (w1 w2 : World) :
  (∀ fn, net_create_fn = Some fn →
     ∀ a b u1 u2, seen view (fn a b u1).1 = seen view (fn a b u2).1) →
  node_list_value w1 node_list1 = node_list_value w2 node_list2 →
  seen (through view)
    (coupling_spline_transformer_call input_dim net_create_fn num_stacks
       tails tail_bounds num_bins mask w1).1
  = seen (through view)
      (coupling_spline_transformer_call input_dim net_create_fn num_stacks
         tails tail_bounds num_bins mask w2).1
  ∧ seen (flow_through view)
      (coupling_flow_call input_dim net_create_fn num_stacks tails
         tail_bounds num_bins base_density w1).1
    = seen (flow_through view)
        (coupling_flow_call input_dim net_create_fn num_stacks tails
           tail_bounds num_bins base_density w2).1
  ∧ constructed
      (__init__ input_dim output_dim context node_list1 op_activ int_activ
         kwargs w1) =
    constructed
      (__init__ input_dim output_dim context node_list2 op_activ int_activ
         kwargs w2).
Proof.
  intros Hfn Hnl.
  split; [by apply call_view|].
  split; [|by apply init_structure].
  rewrite !flow_call_run.
  pose proof (call_view view input_dim net_create_fn num_stacks tails
                tail_bounds num_bins None w1 w2 Hfn) as H.
  destruct (coupling_spline_transformer_call _ _ _ _ _ _ _ w1)
    as [[built1|e1] w1'],
    (coupling_spline_transformer_call _ _ _ _ _ _ _ w2)
    as [[built2|e2] w2'];
    simpl in H; try discriminate.
  - injection H as H. simpl. by rewrite H.
  - by injection H as ->.
Qed.

Lemma factories_equal_on_equal_values_witness :
  node_list_value sample_world (Some 1%positive) =
    node_list_value later_world (Some 5%positive)
  ∧ seen (through hidden)
      (coupling_spline_transformer_call 5 (Some dense_net_factory) (Int 4)
         None (Float 1) 8 None sample_world).1
    = seen (through hidden)
        (coupling_spline_transformer_call 5 (Some dense_net_factory) (Int 4)
           None (Float 1) 8 None later_world).1
  ∧ seen (flow_through hidden)
      (coupling_flow_call 5 (Some dense_net_factory) (Int 4) None (Float 1) 8
         (PyStr "Gaussian") sample_world).1
    = seen (flow_through hidden)
        (coupling_flow_call 5 (Some dense_net_factory) (Int 4) None (Float 1)
           8 (PyStr "Gaussian") later_world).1
  ∧ constructed
      (__init__ 5 2 (Some 4) (Some 1%positive) Identity relu ∅ sample_world)
    = constructed
        (__init__ 5 2 (Some 4) (Some 5%positive) Identity relu ∅ later_world).
Proof.
  split; [reflexivity|].
  apply (factories_equal_on_equal_values hidden 5 (Some dense_net_factory)
           (Int 4) None (Float 1) 8 None (PyStr "Gaussian") 2 (Some 4)
           (Some 1%positive) (Some 5%positive) Identity relu ∅ sample_world
           later_world).
  - intros fn [= <-]. apply dense_net_factory_layers.
  - reflexivity.
Defined.

End factories_results.
